(** * db_utils.py: CSV import, type inference and CSV comparison

    A shallow embedding of [tests/integration/db_utils.py] and the
    properties its specification states about it, followed by further
    properties of that file and of [scripts/compact-session.py].

    Conventions.
    - A Python [str] is a [string]; each character stands for the code
      point of the same number, so the model covers text over the code
      points 0..255.
    - A Python [int] is a [Z].
    - A Python [float] is an IEEE binary64 value, kept in the canonical
      form [Fin neg m e] (the value [m * 2^e]), [Inf] or [NaN].
    - The rows a [csv.DictReader] yields are finite maps from column name
      to cell; the insertion-ordered [col_types] dict is an association
      list.
    - Database code runs in a state monad over the connection, which holds
      the catalog and the trace of executed statements; an exception ends
      the computation and keeps the state reached so far.
    - Reading the files is outside the model: a function that takes a path
      in the source takes here what [csv.DictReader] reads there.  Printing
      and the rollback of an uncommitted transaction are left out. *)

From Stdlib Require Import ZArith Ascii String List Bool Lia Permutation.
From Stdlib Require Import DecimalString.
From stdpp Require Import gmap strings list sorting.

Local Open Scope string_scope.
Local Open Scope Z_scope.

(** ** Python built-ins *)

Module Py.

Inductive exn : Type :=
| ValueError
| TypeError
| DatabaseError.

(** *** Characters *)

Definition ord (c : ascii) : N := N_of_ascii c.

Definition isdigit (c : ascii) : bool :=
  ((48 <=? ord c) && (ord c <=? 57))%N.

Definition digit_value (c : ascii) : Z := Z.of_N (ord c) - 48.

(** The whitespace [int()] and [float()] skip: the ASCII blanks, and of the
    code points above 127 the Unicode spaces NEL and NBSP. *)
Definition isspace (c : ascii) : bool :=
  existsb (N.eqb (ord c)) [9; 10; 11; 12; 13; 32; 133; 160]%N.

Definition lower (c : ascii) : ascii :=
  if ((65 <=? ord c) && (ord c <=? 90))%N then ascii_of_N (ord c + 32) else c.

Fixpoint lowercase (s : string) : string :=
  match s with
  | EmptyString => EmptyString
  | String c s' => String (lower c) (lowercase s')
  end.

(** *** Strings *)

Fixpoint lstrip (s : string) : string :=
  match s with
  | EmptyString => EmptyString
  | String c s' => if isspace c then lstrip s' else s
  end.

Fixpoint rstrip (s : string) : string :=
  match s with
  | EmptyString => EmptyString
  | String c s' =>
      match rstrip s' with
      | EmptyString => if isspace c then EmptyString else String c EmptyString
      | t => String c t
      end
  end.

Definition strip (s : string) : string := rstrip (lstrip s).

(** [needle in hay] *)
Fixpoint contains (needle hay : string) : bool :=
  String.prefix needle hay ||
  match hay with
  | EmptyString => false
  | String _ hay' => contains needle hay'
  end.

(** [a < b] on [str] *)
Definition str_lt (a b : string) : bool := String.ltb a b.

(** [a < b] on tuples of [str] *)
Fixpoint tuple_lt (a b : list string) : bool :=
  match a, b with
  | x :: a', y :: b' => if String.eqb x y then tuple_lt a' b' else str_lt x y
  | [], _ :: _ => true
  | _, [] => false
  end.

(** [sorted(l, key=key)]: the stable sort by [key(a) < key(b)].  A stable
    sort has one result, which insertion from the right computes. *)
Fixpoint insert_sorted {A K} (lt : K -> K -> bool) (key : A -> K) (x : A)
    (l : list A) : list A :=
  match l with
  | [] => [x]
  | y :: l' =>
      if lt (key y) (key x) then y :: insert_sorted lt key x l' else x :: l
  end.

Definition sorted {A K} (lt : K -> K -> bool) (key : A -> K) (l : list A) : list A :=
  foldr (insert_sorted lt key) [] l.

(** *** Number syntax

    [digitpart ::= digit (["_"] digit)*].  [digitpart_tail] reads on after a
    first digit; it returns the number read so far, how many digits it has
    and the text that follows. *)

Fixpoint digitpart_tail (acc : Z) (n : nat) (s : string) : Z * nat * string :=
  match s with
  | EmptyString => (acc, n, s)
  | String c s' =>
      if isdigit c then digitpart_tail (10 * acc + digit_value c) (S n) s'
      else if Ascii.eqb c "_" then
        match s' with
        | String d s'' =>
            if isdigit d
            then digitpart_tail (10 * acc + digit_value d) (S n) s''
            else (acc, n, s)
        | EmptyString => (acc, n, s)
        end
      else (acc, n, s)
  end.

Definition digitpart_from (acc : Z) (s : string) : option (Z * nat * string) :=
  match s with
  | String c s' =>
      if isdigit c then Some (digitpart_tail (10 * acc + digit_value c) 1 s')
      else None
  | EmptyString => None
  end.

Definition sign (s : string) : bool * string :=
  match s with
  | String c s' =>
      if Ascii.eqb c "-" then (true, s')
      else if Ascii.eqb c "+" then (false, s')
      else (false, s)
  | EmptyString => (false, s)
  end.

Definition signed (neg : bool) (v : Z) : Z := if neg then - v else v.

(** The default limit on the digits of a decimal integer string (CPython
    3.11 and later); a longer string is a [ValueError]. *)
Definition int_max_str_digits : nat := 4300.

(** [int(s)]; [None] is [ValueError]. *)
Definition int (s : string) : option Z :=
  let '(neg, t) := sign (strip s) in
  match digitpart_from 0 t with
  | Some (v, n, EmptyString) =>
      if (int_max_str_digits <? n)%nat then None else Some (signed neg v)
  | _ => None
  end.

(** *** Floats *)

Inductive float : Type :=
| NaN
| Inf (neg : bool)
| Fin (neg : bool) (m e : Z).

(** The binary64 value nearest to [M * 10^x] for [M >= 0], ties to even. *)
Definition round_double (neg : bool) (M x : Z) : float :=
  if M =? 0 then Fin neg 0 0
  else
    let n := if 0 <=? x then M * 10 ^ x else M in
    let d := if 0 <=? x then 1 else 10 ^ (- x) in
    let quot (e : Z) : Z * Z * Z :=
      let num := if 0 <=? e then n else n * 2 ^ (- e) in
      let den := if 0 <=? e then d * 2 ^ e else d in
      (num / den, num mod den, den) in
    let e0 := Z.log2 n - Z.log2 d - 53 in
    let e1 := if 2 ^ 53 <=? fst (fst (quot e0)) then e0 + 1 else e0 in
    let e2 := Z.max e1 (-1074) in
    let '(q, r, den) := quot e2 in
    let up := (den <? 2 * r) || ((den =? 2 * r) && Z.odd q) in
    let m := if up then q + 1 else q in
    let '(m, e) := if m =? 2 ^ 53 then (2 ^ 52, e2 + 1) else (m, e2) in
    if 971 <? e then Inf neg
    else if m =? 0 then Fin neg 0 0
    else Fin neg m e.

(** [exponent ::= ("e" | "E") [sign] digitpart], or nothing. *)
Definition exponent (s : string) : option Z :=
  match s with
  | EmptyString => Some 0
  | String c s' =>
      if Ascii.eqb (lower c) "e" then
        let '(neg, t) := sign s' in
        match digitpart_from 0 t with
        | Some (v, _, EmptyString) => Some (signed neg v)
        | _ => None
        end
      else None
  end.

(** [number ::= [digitpart] "." digitpart | digitpart ["."]]: the digits as
    one integer, how many of them follow the point, and the rest. *)
Definition number (s : string) : option (Z * nat * string) :=
  match digitpart_from 0 s with
  | Some (ip, _, rest) =>
      match rest with
      | String c rest' =>
          if Ascii.eqb c "." then
            match digitpart_from ip rest' with
            | Some r => Some r
            | None => Some (ip, O, rest')
            end
          else Some (ip, O, rest)
      | EmptyString => Some (ip, O, rest)
      end
  | None =>
      match s with
      | String c rest' =>
          if Ascii.eqb c "." then digitpart_from 0 rest' else None
      | EmptyString => None
      end
  end.

(** [float(s)]; [None] is [ValueError]. *)
Definition float_of_str (s : string) : option float :=
  let '(neg, t) := sign (strip s) in
  let l := lowercase t in
  if String.eqb l "inf" || String.eqb l "infinity" then Some (Inf neg)
  else if String.eqb l "nan" then Some NaN
  else
    match number t with
    | Some (M, k, rest) =>
        match exponent rest with
        | Some E => Some (round_double neg M (E - Z.of_nat k))
        | None => None
        end
    | None => None
    end.

(** [a == b] on floats *)
Definition float_eq (a b : float) : bool :=
  match a, b with
  | Inf s, Inf t => Bool.eqb s t
  | Fin s m e, Fin t m' e' =>
      ((m =? 0) && (m' =? 0)) || (Bool.eqb s t && (m =? m') && (e =? e'))
  | _, _ => false
  end.

End Py.

(** *** Regular expressions

    The two patterns of the source are sequences of single-character items;
    [match_prefix] is [re.match] for such a sequence and returns the text
    after the match. *)

Module Re.

Inductive item : Type :=
| Digit                      (* \d *)
| Char (c : ascii)
| OneOf (cs : list ascii).   (* [...] *)

Definition item_matches (i : item) (c : ascii) : bool :=
  match i with
  | Digit => Py.isdigit c
  | Char c' => Ascii.eqb c c'
  | OneOf cs => existsb (Ascii.eqb c) cs
  end.

Fixpoint match_prefix (p : list item) (s : string) : option string :=
  match p, s with
  | [], _ => Some s
  | i :: p', String c s' =>
      if item_matches i c then match_prefix p' s' else None
  | _ :: _, EmptyString => None
  end.

(** [$]: the end of the text, or just before a newline that ends it. *)
Definition at_end (s : string) : bool :=
  String.eqb s "" || String.eqb s (String "010" "").

End Re.

(** ** Data model *)

(** A cell of a [DictReader] row: a [str], or [None] for a field the record
    is too short to have. *)
Inductive cell : Type :=
| CNone
| CStr (s : string).

Abbreviation row := (gmap string cell).

(** [row.get(h, '')] *)
Definition row_get (r : row) (h : string) : cell :=
  match r !! h with
  | Some c => c
  | None => CStr ""
  end.

(** [str(c)] *)
Definition str (c : cell) : string :=
  match c with
  | CNone => "None"
  | CStr s => s
  end.

(** What a [csv.DictReader] gives after [list(reader)]: its [fieldnames]
    ([None] for a file without any record) and its rows. *)
Record csv_file : Type := {
  fieldnames : option (list string);
  rows : list row
}.

(** The dict [DictReader] makes of one record: [dict(zip(fieldnames, rec))],
    then [restval = None] under the fieldnames the record does not reach.
    The fields beyond the fieldnames go under the key [None], which no
    lookup of the program uses; they are left out. *)
Definition DictReader_row (fn rec : list string) : row :=
  let d := foldl (fun d kv => <[kv.1 := CStr kv.2]> d) ∅ (zip fn rec) in
  foldl (fun d key => <[key := CNone]> d) d (drop (length rec) fn).

(** The records are those [csv.reader] yields; the first is the header and
    empty records after it are skipped. *)
Definition DictReader (records : list (list string)) : csv_file :=
  match records with
  | [] => {| fieldnames := None; rows := [] |}
  | fn :: recs =>
      {| fieldnames := Some fn;
         rows := DictReader_row fn <$> filter (fun r => r ≠ []) recs |}
  end.

(** The [col_types] dict keeps insertion order. *)
Fixpoint dict_set (k v : string) (d : list (string * string)) : list (string * string) :=
  match d with
  | [] => [(k, v)]
  | (k', v') :: d' =>
      if String.eqb k' k then (k, v) :: d' else (k', v') :: dict_set k v d'
  end.

Fixpoint dict_get (d : list (string * string)) (k : string) : option string :=
  match d with
  | [] => None
  | (k', v) :: d' => if String.eqb k' k then Some v else dict_get d' k
  end.

(** A Python value handed to the driver as a statement parameter. *)
Inductive value : Type :=
| VNone
| VInt (z : Z)
| VFloat (f : Py.float)
| VStr (s : string).

Inductive outcome (A : Type) : Type :=
| Ret (a : A)
| Raise (e : Py.exn).
Arguments Ret {A} a.
Arguments Raise {A} e.

(** ** Type inference *)

(** [[row.get(header, '') for row in rows if row.get(header, '')]]: the
    cells that are non-empty strings. *)
Definition column_values (header : string) (rows : list row) : list string :=
  omap (fun r => match row_get r header with
                 | CStr s => if String.eqb s "" then None else Some s
                 | CNone => None
                 end) rows.

(** [max(l)] for a non-empty [l]. *)
Definition max_of (l : list Z) : Z :=
  match l with
  | [] => 0
  | x :: l' => foldl Z.max x l'
  end.

Definition date_pattern : list Re.item :=
  [Re.Digit; Re.Digit; Re.Digit; Re.Digit; Re.Char "-";
   Re.Digit; Re.Digit; Re.Char "-"; Re.Digit; Re.Digit].

Definition datetime_pattern : list Re.item :=
  date_pattern ++
  [Re.OneOf ["T"; " "]%char; Re.Digit; Re.Digit; Re.Char ":";
   Re.Digit; Re.Digit; Re.Char ":"; Re.Digit; Re.Digit].

Definition match_date (v : string) : bool :=
  match Re.match_prefix date_pattern v with
  | Some rest => Re.at_end rest
  | None => false
  end.

Definition match_datetime (v : string) : bool :=
  match Re.match_prefix datetime_pattern v with
  | Some _ => true
  | None => false
  end.

(** The body of the loop of [infer_column_types], for the values of one
    column. *)
Definition infer_values (values : list string) : string :=
  match values with
  | [] => "NVARCHAR(255)"
  | _ :: _ =>
      match mapM Py.int values with
      | Some ints =>
          let max_val := max_of (Z.abs <$> ints) in
          if max_val <=? 2147483647 then "INT" else "BIGINT"
      | None =>
          match mapM Py.float_of_str values with
          | Some _ => "DECIMAL(18,6)"
          | None =>
              if forallb match_date values then "DATE"
              else if forallb match_datetime values then "DATETIME2"
              else
                let max_len := max_of ((fun v => Z.of_nat (String.length v)) <$> values) in
                if max_len <=? 50 then "NVARCHAR(50)"
                else if max_len <=? 255 then "NVARCHAR(255)"
                else "NVARCHAR(MAX)"
          end
      end
  end.

Definition infer_column_types (headers : list string) (rows : list row)
  : list (string * string) :=
  foldl (fun col_types header =>
           dict_set header (infer_values (column_values header rows)) col_types)
        [] headers.

(** ** Table creation statement *)

Definition nl : string := String "010" "".

Definition generate_create_table (schema_name table_name : string)
    (col_types : list (string * string)) : string :=
  let columns := (fun cd => "[" ++ cd.1 ++ "] " ++ cd.2 ++ " NULL") <$> col_types in
  "CREATE TABLE [" ++ schema_name ++ "].[" ++ table_name ++ "] (" ++ nl ++ "    "
    ++ String.concat ("," ++ nl ++ "    ") columns ++ nl ++ ")".

(** ** Conversion of a cell for insertion *)

Definition convert_value (v : cell) (sql_type : string) : outcome value :=
  match v with
  | CNone => Ret VNone
  | CStr s =>
      if String.eqb s "" then Ret VNone
      else if Py.contains "INT" sql_type then
        match Py.int s with
        | Some z => Ret (VInt z)
        | None => Raise Py.ValueError
        end
      else if Py.contains "DECIMAL" sql_type || Py.contains "FLOAT" sql_type then
        match Py.float_of_str s with
        | Some f => Ret (VFloat f)
        | None => Raise Py.ValueError
        end
      else Ret (VStr s)
  end.

(** ** The database connection

    The connection is the external collaborator.  Its model keeps what the
    program can observe or cause: the catalog (schemas, and tables with the
    rows inserted into them) and the trace of what was sent, in order.  A
    statement on a missing object, or creating an existing one, raises the
    driver's error.  Printing to standard output is left out. *)

Inductive stmt : Type :=
| SelectSchemaCount (schema_name : string)
| SelectTableCount (schema_name table_name : string)
| SelectTableNames (schema_name : string)
| CreateSchema (schema_name : string)
| CreateTable (schema_name table_name : string) (col_types : list (string * string))
| TruncateTable (schema_name table_name : string)
| InsertInto (schema_name table_name : string) (columns : list string) (values : list value)
| DropTable (schema_name table_name : string)
| DropSchema (schema_name : string).

Inductive event : Type :=
| Execute (s : stmt)
| Commit.

Record conn : Type := {
  schemas : gset string;
  tables : gmap (string * string) (list (list value));
  trace : list event
}.

(** The text and parameters of each statement, as the source writes them. *)
Definition sql_text (s : stmt) : string * list value :=
  match s with
  | SelectSchemaCount sn =>
      ("SELECT COUNT(*) FROM sys.schemas WHERE name = ?", [VStr sn])
  | SelectTableCount sn tn =>
      ("SELECT COUNT(*) FROM sys.tables t" ++ nl
       ++ "           JOIN sys.schemas s ON t.schema_id = s.schema_id" ++ nl
       ++ "           WHERE s.name = ? AND t.name = ?", [VStr sn; VStr tn])
  | SelectTableNames sn =>
      ("SELECT t.name FROM sys.tables t" ++ nl
       ++ "               JOIN sys.schemas s ON t.schema_id = s.schema_id" ++ nl
       ++ "               WHERE s.name = ?", [VStr sn])
  | CreateSchema sn => ("CREATE SCHEMA [" ++ sn ++ "]", [])
  | CreateTable sn tn col_types => (generate_create_table sn tn col_types, [])
  | TruncateTable sn tn => ("TRUNCATE TABLE [" ++ sn ++ "].[" ++ tn ++ "]", [])
  | InsertInto sn tn columns values =>
      ("INSERT INTO [" ++ sn ++ "].[" ++ tn ++ "] ("
       ++ String.concat "," ((fun h => "[" ++ h ++ "]") <$> columns)
       ++ ") VALUES (" ++ String.concat "," ((fun _ => "?") <$> columns) ++ ")",
       values)
  | DropTable sn tn => ("DROP TABLE [" ++ sn ++ "].[" ++ tn ++ "]", [])
  | DropSchema sn => ("DROP SCHEMA [" ++ sn ++ "]", [])
  end.

Module Db.

Definition M (A : Type) : Type := conn -> outcome A * conn.

Definition ret {A} (a : A) : M A := fun c => (Ret a, c).

Definition raise {A} (e : Py.exn) : M A := fun c => (Raise e, c).

Definition bind {A B} (m : M A) (k : A -> M B) : M B :=
  fun c =>
    match m c with
    | (Ret a, c') => k a c'
    | (Raise e, c') => (Raise e, c')
    end.

(** [for x in l: body(x)] *)
Fixpoint for_each {A} (l : list A) (body : A -> M unit) : M unit :=
  match l with
  | [] => ret tt
  | x :: l' => bind (body x) (fun _ => for_each l' body)
  end.

Definition log (ev : event) (c : conn) : conn :=
  {| schemas := schemas c; tables := tables c; trace := trace c ++ [ev] |}.

Definition tables_of (sn : string) (c : conn) : list string :=
  omap (fun kv => if String.eqb (kv.1).1 sn then Some (kv.1).2 else None)
       (map_to_list (tables c)).

(** What the backend does with a statement: the rows it returns, and the
    catalog after it. *)
Definition backend (s : stmt) (c : conn) : outcome (list (list value)) * conn :=
  let count (b : bool) := (Ret [[VInt (if b then 1 else 0)]], c) in
  let update (ok : bool) sch tbl :=
    if ok
    then (Ret [], {| schemas := sch; tables := tbl; trace := trace c |})
    else (Raise Py.DatabaseError, c) in
  let has_table sn tn := bool_decide (is_Some (tables c !! (sn, tn))) in
  let has_schema sn := bool_decide (sn ∈ schemas c) in
  match s with
  | SelectSchemaCount sn => count (has_schema sn)
  | SelectTableCount sn tn => count (has_table sn tn)
  | SelectTableNames sn => (Ret ((fun t => [VStr t]) <$> tables_of sn c), c)
  | CreateSchema sn =>
      update (negb (has_schema sn)) ({[ sn ]} ∪ schemas c) (tables c)
  | CreateTable sn tn _ =>
      update (has_schema sn && negb (has_table sn tn))
             (schemas c) (<[(sn, tn) := []]> (tables c))
  | TruncateTable sn tn =>
      update (has_table sn tn) (schemas c) (<[(sn, tn) := []]> (tables c))
  | InsertInto sn tn _ values =>
      update (has_table sn tn) (schemas c)
             (alter (fun data => (data ++ [values])%list) (sn, tn) (tables c))
  | DropTable sn tn =>
      update (has_table sn tn) (schemas c) (delete (sn, tn) (tables c))
  | DropSchema sn =>
      update (has_schema sn && bool_decide (tables_of sn c = []))
             (schemas c ∖ {[ sn ]}) (tables c)
  end.

(** [cursor.execute(...)] followed by [cursor.fetchall()] *)
Definition execute (s : stmt) : M (list (list value)) :=
  fun c => backend s (log (Execute s) c).

(** [conn.commit()] *)
Definition commit : M unit := fun c => (Ret tt, log Commit c).

(** [cursor.fetchone()[0] > 0] *)
Definition first_positive (result : list (list value)) : M bool :=
  match result with
  | (VInt n :: _) :: _ => ret (0 <? n)
  | _ => raise Py.TypeError
  end.

End Db.

Notation "'let*' x ':=' m 'in' k" := (Db.bind m (fun x => k))
  (at level 10, x name, m at level 100, k at level 200, only parsing).

(** ** Schema lifecycle *)

Definition schema_exists (schema_name : string) : Db.M bool :=
  let* result := Db.execute (SelectSchemaCount schema_name) in
  Db.first_positive result.

Definition table_exists (schema_name table_name : string) : Db.M bool :=
  let* result := Db.execute (SelectTableCount schema_name table_name) in
  Db.first_positive result.

Definition create_schema (schema_name : string) : Db.M bool :=
  let* present := schema_exists schema_name in
  if present then Db.ret true
  else
    let* _ := Db.execute (CreateSchema schema_name) in
    let* _ := Db.commit in
    Db.ret true.

(** [row[0]] of a row of the table listing: the name of a table. *)
Definition first_name (r : list value) : string :=
  match r with
  | VStr t :: _ => t
  | _ => ""
  end.

Definition drop_schema (schema_name : string) (cascade : bool) : Db.M bool :=
  let* present := schema_exists schema_name in
  if negb present then Db.ret true
  else
    let* _ :=
      (if cascade then
         let* fetched := Db.execute (SelectTableNames schema_name) in
         let tables := first_name <$> fetched in
         Db.for_each tables (fun table =>
           let* _ := Db.execute (DropTable schema_name table) in
           Db.ret tt)
       else Db.ret tt) in
    let* _ := Db.execute (DropSchema schema_name) in
    let* _ := Db.commit in
    Db.ret true.

(** ** Import *)

(** [col_types.get(h, 'NVARCHAR')] *)
Definition col_type (col_types : list (string * string)) (h : string) : string :=
  match dict_get col_types h with
  | Some t => t
  | None => "NVARCHAR"
  end.

(** [[convert_value(row.get(h, ''), col_types.get(h, 'NVARCHAR')) for h in headers]] *)
Definition convert_row (col_types : list (string * string)) (headers : list string)
    (r : row) : outcome (list value) :=
  foldr (fun h rest =>
           match convert_value (row_get r h) (col_type col_types h) with
           | Ret v =>
               match rest with
               | Ret vs => Ret (v :: vs)
               | Raise e => Raise e
               end
           | Raise e => Raise e
           end)
        (Ret []) headers.

Definition lift {A} (o : outcome A) : Db.M A := fun c => (o, c).

(** The insertion loop; it returns [rows_imported]. *)
Fixpoint insert_rows (schema_name table_name : string)
    (col_types : list (string * string)) (headers : list string)
    (rs : list row) (rows_imported : Z) : Db.M Z :=
  match rs with
  | [] => Db.ret rows_imported
  | r :: rs' =>
      let* values := lift (convert_row col_types headers r) in
      let* _ := Db.execute (InsertInto schema_name table_name headers values) in
      insert_rows schema_name table_name col_types headers rs' (rows_imported + 1)
  end.

(** [import_csv]; [file] is what [csv.DictReader] reads at [csv_path]. *)
Definition import_csv (file : csv_file) (schema_name table_name : string)
    (create_table truncate : bool) : Db.M Z :=
  match fieldnames file with
  | None | Some [] => Db.raise Py.ValueError
  | Some headers =>
      match rows file with
      | [] => Db.ret 0
      | rows =>
          let col_types := infer_column_types headers rows in
          let* _ :=
            (if create_table then
               let* present := table_exists schema_name table_name in
               if negb present then
                 let* _ := Db.execute (CreateTable schema_name table_name col_types) in
                 Db.commit
               else Db.ret tt
             else Db.ret tt) in
          let* _ :=
            (if truncate then
               let* present := table_exists schema_name table_name in
               if present then
                 let* _ := Db.execute (TruncateTable schema_name table_name) in
                 Db.ret tt
               else Db.ret tt
             else Db.ret tt) in
          let* rows_imported :=
            insert_rows schema_name table_name col_types headers rows 0 in
          let* _ := Db.commit in
          Db.ret rows_imported
      end
  end.

(** ** CSV comparison *)

(** The difference descriptions; each constructor stands for one of the
    three messages and holds what the message prints. *)
Inductive difference : Type :=
| HeadersDiffer (headers1 headers2 : list string)
| RowCountDiffers (n1 n2 : nat)
| CellDiffers (row_number : nat) (h v1 v2 : string).

(** [set(headers1) != set(headers2)] *)
Definition header_sets_differ (headers1 headers2 : list string) : bool :=
  negb (bool_decide (list_to_set headers1 =@{gset string} list_to_set headers2)).

Definition row_key (headers1 : list string) (r : row) : list string :=
  (fun h => str (row_get r h)) <$> Py.sorted Py.str_lt id headers1.

(** Two cell texts that differ and are not equal as floats either. *)
Definition cells_differ (v1 v2 : string) : bool :=
  if String.eqb v1 v2 then false
  else
    match Py.float_of_str v1, Py.float_of_str v2 with
    | Some a, Some b => negb (Py.float_eq a b)
    | _, _ => true
    end.

(** The inner loop over the headers, for the pair of rows at index [i]. *)
Definition compare_rows (headers1 : list string) (i : nat) (rr : row * row)
  : list difference :=
  omap (fun h =>
          let v1 := str (row_get rr.1 h) in
          let v2 := str (row_get rr.2 h) in
          if cells_differ v1 v2 then Some (CellDiffers (i + 1) h v1 v2) else None)
       headers1.

(** [compare_csv_files]; [file1] and [file2] are what [csv.DictReader] reads
    at the two paths.  [set(None)] raises [TypeError]. *)
Definition compare_csv_files (file1 file2 : csv_file) (ignore_order : bool)
  : outcome (bool * list difference) :=
  match fieldnames file1, fieldnames file2 with
  | Some headers1, Some headers2 =>
      let rows1 := rows file1 in
      let rows2 := rows file2 in
      let header_diff :=
        if header_sets_differ headers1 headers2
        then [HeadersDiffer headers1 headers2] else [] in
      let count_diff :=
        if negb (length rows1 =? length rows2)%nat
        then [RowCountDiffers (length rows1) (length rows2)] else [] in
      let '(rows1_sorted, rows2_sorted) :=
        if ignore_order
        then (Py.sorted Py.tuple_lt (row_key headers1) rows1,
              Py.sorted Py.tuple_lt (row_key headers1) rows2)
        else (rows1, rows2) in
      let cell_diffs :=
        concat (imap (compare_rows headers1) (zip rows1_sorted rows2_sorted)) in
      let differences := (header_diff ++ count_diff ++ cell_diffs)%list in
      Ret ((length differences =? 0)%nat, differences)
  | _, _ => Raise Py.TypeError
  end.

(** * compact-session.py: truncation of large tool results

    The session file is a sequence of JSON values, one per line; the model
    starts from the values [json.loads] gives and ends at the values handed
    to [json.dumps].  A JSON object is the list of its items, in order. *)

Local Set Warnings "-register-all".

Inductive json : Type :=
| JNull
| JBool (b : bool)
| JInt (z : Z)
| JFloat (f : Py.float)
| JStr (s : string)
| JList (elements : list json)
| JDict (items : list (string * json)).

(** [obj.get(k)] *)
Fixpoint json_get (items : list (string * json)) (k : string) : option json :=
  match items with
  | [] => None
  | (k', v) :: items' => if String.eqb k' k then Some v else json_get items' k
  end.

(** [obj.get('type') == t] *)
Definition has_type (items : list (string * json)) (t : string) : bool :=
  match json_get items "type" with
  | Some (JStr s) => String.eqb s t
  | _ => false
  end.

(** [k in obj] *)
Definition has_key (items : list (string * json)) (k : string) : bool :=
  existsb (fun kv => String.eqb kv.1 k) items.

(** Where the index [i] of a slice falls in a sequence of length [len]. *)
Definition slice_index (len i : Z) : Z :=
  if i <? 0 then Z.max (len + i) 0 else Z.min i len.

(** [s[:stop]] *)
Definition slice_to (s : string) (stop : Z) : string :=
  String.substring 0 (Z.to_nat (slice_index (Z.of_nat (String.length s)) stop)) s.

(** [s[start:]] *)
Definition slice_from (s : string) (start : Z) : string :=
  let k := Z.to_nat (slice_index (Z.of_nat (String.length s)) start) in
  String.substring k (String.length s - k) s.

(** [l[start:]] on a list *)
Definition list_slice_from {A} (l : list A) (start : Z) : list A :=
  drop (Z.to_nat (slice_index (Z.of_nat (length l)) start)) l.

(** [str(z)] *)
Definition str_of_int (z : Z) : string := NilZero.string_of_int (Z.to_int z).

(** The text that replaces a long string. *)
Definition truncated (obj : string) (max_size : Z) : string :=
  let half := max_size / 2 in
  slice_to obj half ++ nl ++ nl ++ "... [TRUNCATED "
    ++ str_of_int (Z.of_nat (String.length obj) - max_size) ++ " chars] ..."
    ++ nl ++ nl ++ slice_from obj (- half).

Fixpoint truncate_content (obj : json) (max_size : Z) (path : string)
    (in_tool_result : bool) : json :=
  match obj with
  | JStr s =>
      if in_tool_result && (max_size <? Z.of_nat (String.length s))
      then JStr (truncated s max_size)
      else obj
  | JDict items =>
      if has_type items "thinking" && has_key items "signature" then obj
      else
        let is_tool_result := has_type items "tool_result" in
        JDict (map (fun kv =>
                      (kv.1, truncate_content kv.2 max_size (path ++ "." ++ kv.1)
                               (in_tool_result || is_tool_result)))
                   items)
  | JList elements =>
      JList (map (fun item => truncate_content item max_size (path ++ "[]") in_tool_result)
                 elements)
  | _ => obj
  end.

Inductive session_error : Type :=
| IndexError
| AttributeError.

(** The lines [compact_session] keeps: all of them, or with [keep_last] the
    last ones and the first line when it is the file history snapshot.
    [lines[0]] of no line is an [IndexError], and [.get] on a line that is
    not an object an [AttributeError]. *)
Definition keep_lines (lines : list json) (keep_last : option Z)
  : session_error + list json :=
  match keep_last with
  | Some k =>
      if negb (k =? 0) && (k <? Z.of_nat (length lines)) then
        match lines with
        | [] => inl IndexError
        | JDict items :: _ =>
            let kept := list_slice_from lines (- k) in
            inr (if has_type items "file-history-snapshot"
                 then JDict items :: kept else kept)
        | _ :: _ => inl AttributeError
        end
      else inr lines
  | None => inr lines
  end.



(** Every string of the value passes [ok]. *)
Fixpoint all_strings (ok : string -> bool) (obj : json) : bool :=
  match obj with
  | JStr s => ok s
  | JDict items => forallb (fun kv => all_strings ok kv.2) items
  | JList elements => forallb (all_strings ok) elements
  | _ => true
  end.


(** ** Vocabulary of the properties *)

(** A well-formed CSV file has a header record. *)
Definition well_formed (file : csv_file) : Prop := is_Some (fieldnames file).

(** The SQL types of the inference, by kind. *)
Definition text_or_date_types : list string :=
  ["DATE"; "DATETIME2"; "NVARCHAR(50)"; "NVARCHAR(255)"; "NVARCHAR(MAX)"].

Definition numeric_types : list string := ["INT"; "BIGINT"; "DECIMAL(18,6)"].

(** What the import reads of a cell: its text when it is a non-empty
    string, and nothing otherwise. *)
Definition text_of (c : cell) : option string :=
  match c with
  | CStr s => if String.eqb s "" then None else Some s
  | CNone => None
  end.

Definition same_text (r r' : row) : Prop :=
  forall h, text_of (row_get r h) = text_of (row_get r' h).

(** No cell of the two rows under the headers [hs] is reported. *)
Definition cells_agree (hs : list string) (rr : row * row) : Prop :=
  forall h, h ∈ hs -> cells_differ (str (row_get rr.1 h)) (str (row_get rr.2 h)) = false.

(** The rows [compare_csv_files] pairs up. *)
Definition paired_rows (headers1 : list string) (rows1 rows2 : list row)
    (ignore_order : bool) : list (row * row) :=
  if ignore_order
  then zip (Py.sorted Py.tuple_lt (row_key headers1) rows1)
           (Py.sorted Py.tuple_lt (row_key headers1) rows2)
  else zip rows1 rows2.

(** [a <= b] for the order whose [<] is [lt]. *)
Definition key_le {K : Type} (lt : K -> K -> bool) (a b : K) : Prop := lt b a = false.

Definition str_le : relation string := key_le Py.str_lt.

(** Connections and files for the examples. *)
Definition empty_conn : conn := {| schemas := ∅; tables := ∅; trace := [] |}.

Definition conn_with_table (sn tn : string) : conn :=
  {| schemas := {[ sn ]}; tables := {[ (sn, tn) := [] ]}; trace := [] |}.

Definition ids_file : csv_file := DictReader [["id"; "note"]; ["1"; "a"]; ["-7"; ""]].

Definition notes_file : csv_file := DictReader [["n"]; ["12"]; ["n/a"]].

Definition left_file : csv_file := DictReader [["a"; "b"]; ["2"; "x"]; ["1"; "2.0"]].

Definition right_file : csv_file := DictReader [["b"; "a"]; ["2"; "1"]; ["x"; "2"]].

Definition amounts_file : csv_file :=
  DictReader [["id"; "amount"]; ["1"; "10.50"]; ["2"; "20"]; ["3"; ""]].

(** ** Vocabulary of the further properties *)

(** An outcome that is a result or the driver's error. *)
Definition no_python_error {A} (r : outcome A * conn) : Prop :=
  forall e, r.1 = Raise e -> e = Py.DatabaseError.

(** The statements that create the table, when the import creates it. *)
Definition creation_events (sn tn : string) (col_types : list (string * string))
    (create_table present : bool) : list event :=
  ((if create_table then [Execute (SelectTableCount sn tn)] else [])
   ++ (if create_table && negb present
       then [Execute (CreateTable sn tn col_types); Commit] else []))%list.

Definition truncation_events (sn tn : string) (truncate : bool) : list event :=
  if truncate
  then [Execute (SelectTableCount sn tn); Execute (TruncateTable sn tn)]
  else [].

Definition two_schema_conn : conn :=
  {| schemas := {[ "s"; "keep" ]};
     tables := {[ ("s", "a") := []; ("s", "b") := [[VInt 1]]; ("keep", "a") := [] ]};
     trace := [] |}.

(** What each kind of difference reports. *)
Definition difference_sound (headers1 headers2 : list string) (n1 n2 : nat)
    (d : difference) : Prop :=
  match d with
  | HeadersDiffer a b =>
      a = headers1 /\ b = headers2 /\ header_sets_differ headers1 headers2 = true
  | RowCountDiffers m1 m2 => m1 = n1 /\ m2 = n2 /\ n1 <> n2
  | CellDiffers i h v1 v2 =>
      (1 <= i <= Nat.min n1 n2)%nat /\ h ∈ headers1 /\ v1 <> v2
      /\ cells_differ v1 v2 = true
  end.

Definition tool_result_line : json :=
  JDict [("type", JStr "user");
         ("content", JList [JDict [("type", JStr "tool_result");
                                   ("content", JStr "0123456789abcdef")]])].

Definition session_lines : list json :=
  [JDict [("type", JStr "file-history-snapshot")];
   JDict [("type", JStr "user")]; JDict [("type", JStr "assistant")];
   tool_result_line].

(** * Properties *)

Local Open Scope list_scope.

(** ** The specification's examples and the built-ins at work *)

Example int_examples :
  map Py.int [" 12 "; "-0"; "1_000"; "+7"; "1__0"; "1."; ""; "-"; "0x10"]
  = [Some 12; Some 0; Some 1000; Some 7; None; None; None; None; None].
Proof. reflexivity. Qed.

Example float_examples :
  map Py.float_of_str ["1."; ".5"; "1e1_0"; "-Infinity"; "+NaN"; "1e"; "."; "1_.5"; "0.1"]
  = [Some (Py.Fin false (2 ^ 52) (-52)); Some (Py.Fin false (2 ^ 52) (-53));
     Some (Py.Fin false 5242880000000000 (-19)); Some (Py.Inf true); Some Py.NaN;
     None; None; None; Some (Py.Fin false 7205759403792794 (-56))].
Proof. vm_compute. reflexivity. Qed.

Example float_eq_examples :
  map (fun '(a, b) =>
         match Py.float_of_str a, Py.float_of_str b with
         | Some x, Some y => Some (Py.float_eq x y)
         | _, _ => None
         end)
      [("2", "2.0"); ("1.0", "1.00000"); ("0.1", "0.10000000000000000001");
       ("-0", "0.0"); ("nan", "nan"); ("1e400", "inf"); ("2", "3"); ("x", "1")]
  = [Some true; Some true; Some true; Some true; Some false; Some true;
     Some false; None].
Proof. vm_compute. reflexivity. Qed.

Example infer_spec_example :
  infer_column_types ["id"; "amount"; "created"]
    (rows (DictReader [["id"; "amount"; "created"];
                       ["1"; "10.50"; "2024-01-01"];
                       ["2"; "20.00"; "2024-01-02"]]))
  = [("id", "INT"); ("amount", "DECIMAL(18,6)"); ("created", "DATE")].
Proof. vm_compute. reflexivity. Qed.

Example DictReader_short_record :
  rows (DictReader [["a"; "b"]; ["1"]; []; ["2"; "3"; "4"]])
  = [ {[ "a" := CStr "1"; "b" := CNone ]}; {[ "a" := CStr "2"; "b" := CStr "3" ]} ].
Proof. vm_compute. reflexivity. Qed.

Example import_spec_example :
  let file := DictReader [["id"; "amount"]; ["1"; "10.50"]; ["2"; ""]] in
  let '(result, c) := import_csv file "s" "t" true false (conn_with_table "s" "x") in
  result = Ret 2
  /\ tables c !! ("s", "t")
     = Some [[VInt 1; VFloat (Py.Fin false 5910974510923776 (-49))]; [VInt 2; VNone]]
  /\ length (trace c) = 6%nat.
Proof. vm_compute. auto. Qed.

Example compare_spec_examples :
  compare_csv_files (DictReader [["a"; "b"]; ["1"; "2"]])
                    (DictReader [["a"; "b"]; ["1"; "2.0"]]) true
  = Ret (true, [])
  /\ compare_csv_files (DictReader [["a"; "b"]; ["1"; "2"]])
                       (DictReader [["a"; "b"]; ["1"; "3"]]) true
     = Ret (false, [CellDiffers 1 "b" "2" "3"])
  /\ compare_csv_files (DictReader [["a"; "b"]; ["2"; "x"]; ["1"; "y"]])
                       (DictReader [["b"; "a"]; ["y"; "1"]; ["x"; "2"]; ["z"; "3"]]) true
     = Ret (false, [RowCountDiffers 2 3]).
Proof. vm_compute. auto. Qed.

(** ** The order on strings and on tuples of strings *)

Section StrOrder.

Lemma ascii_compare_lt_trans a b c :
  Ascii.compare a b = Lt -> Ascii.compare b c = Lt -> Ascii.compare a c = Lt.
Proof. unfold Ascii.compare. rewrite !N.compare_lt_iff. lia. Qed.

Lemma str_compare_lt_trans a : forall b c,
  String.compare a b = Lt -> String.compare b c = Lt -> String.compare a c = Lt.
Proof.
  induction a as [|x a IH]; intros [|y b] [|z c]; simpl; try done.
  destruct (Ascii.compare x y) eqn:Hxy; [|clear IH|done].
  - apply Ascii.compare_eq_iff in Hxy. subst y.
    destruct (Ascii.compare x z); eauto.
  - destruct (Ascii.compare y z) eqn:Hyz; [| |done]; intros _ _.
    + apply Ascii.compare_eq_iff in Hyz. subst z. by rewrite Hxy.
    + by rewrite (ascii_compare_lt_trans x y z).
Qed.

Lemma str_lt_spec a b : Py.str_lt a b = true <-> String.compare a b = Lt.
Proof. unfold Py.str_lt, String.ltb. destruct (String.compare a b); naive_solver. Qed.

Lemma str_lt_trans a b c :
  Py.str_lt a b = true -> Py.str_lt b c = true -> Py.str_lt a c = true.
Proof. rewrite !str_lt_spec. apply str_compare_lt_trans. Qed.

Lemma str_lt_asym a b : Py.str_lt a b = true -> Py.str_lt b a = false.
Proof.
  rewrite str_lt_spec. intros H. apply not_true_is_false. rewrite str_lt_spec.
  rewrite String.compare_antisym, H. done.
Qed.

Lemma str_lt_trichotomy a b :
  Py.str_lt a b = false -> Py.str_lt b a = false -> a = b.
Proof.
  intros H1%not_true_iff_false H2%not_true_iff_false.
  rewrite str_lt_spec in H1, H2. apply String.compare_eq_iff.
  rewrite String.compare_antisym in H2.
  destruct (String.compare a b); naive_solver.
Qed.

Lemma str_lt_irrefl a : Py.str_lt a a = false.
Proof. destruct (Py.str_lt a a) eqn:H; [|done]. by rewrite (str_lt_asym a a H) in H. Qed.

Lemma tuple_lt_asym a : forall b,
  Py.tuple_lt a b = true -> Py.tuple_lt b a = false.
Proof.
  induction a as [|x a IH]; intros [|y b]; simpl; try done.
  rewrite (String.eqb_sym y x). destruct (String.eqb x y); [apply IH|apply str_lt_asym].
Qed.

Lemma tuple_lt_trichotomy a : forall b,
  Py.tuple_lt a b = false -> Py.tuple_lt b a = false -> a = b.
Proof.
  induction a as [|x a IH]; intros [|y b]; simpl; try done.
  rewrite (String.eqb_sym y x). destruct (String.eqb_spec x y) as [->|Hne].
  - intros. f_equal. by apply IH.
  - intros H1 H2. destruct Hne. by apply str_lt_trichotomy.
Qed.

Lemma tuple_lt_trans a : forall b c,
  Py.tuple_lt a b = true -> Py.tuple_lt b c = true -> Py.tuple_lt a c = true.
Proof.
  induction a as [|x a IH]; intros [|y b] [|z c]; simpl; try done.
  destruct (String.eqb_spec x y) as [->|Hxy].
  - destruct (String.eqb_spec y z); [apply IH|done].
  - destruct (String.eqb_spec y z) as [->|Hyz].
    + destruct (String.eqb_spec x z); done.
    + intros H1 H2. pose proof (str_lt_trans _ _ _ H1 H2) as H3.
      destruct (String.eqb_spec x z) as [->|]; [|done].
      by rewrite (str_lt_asym _ _ H1) in H2.
Qed.

End StrOrder.

(** ** The stable sort *)

Section Sorted.
Context {A K : Type} (lt : K -> K -> bool) (key : A -> K).
Hypothesis lt_asym : forall a b, lt a b = true -> lt b a = false.
Hypothesis lt_trichotomy : forall a b, lt a b = false -> lt b a = false -> a = b.
Hypothesis lt_trans : forall a b c, lt a b = true -> lt b c = true -> lt a c = true.

Lemma le_transitive : Transitive (key_le lt).
Proof using lt_asym lt_trichotomy lt_trans.
  intros a b c Hab Hbc. unfold key_le in *.
  destruct (lt c a) eqn:Hca; [|done].
  destruct (lt a b) eqn:Hlt.
  - by rewrite (lt_trans _ _ _ Hca Hlt) in Hbc.
  - rewrite (lt_trichotomy a b Hlt Hab) in Hca. by rewrite Hca in Hbc.
Qed.

Lemma le_antisymm : AntiSymm (=) (key_le lt).
Proof using lt_trichotomy. intros a b Hab Hba. by apply lt_trichotomy. Qed.

Lemma insert_sorted_Permutation x l : Py.insert_sorted lt key x l ≡ₚ x :: l.
Proof using Type.
  induction l as [|y l IH]; simpl; [done|].
  destruct (lt (key y) (key x)); [|done].
  rewrite IH. apply Permutation_swap.
Qed.

Lemma sorted_Permutation l : Py.sorted lt key l ≡ₚ l.
Proof using Type.
  induction l as [|x l IH]; simpl; [done|].
  fold (Py.sorted lt key l). by rewrite insert_sorted_Permutation, IH.
Qed.

Lemma insert_sorted_keys x l :
  key <$> Py.insert_sorted lt key x l = Py.insert_sorted lt id (key x) (key <$> l).
Proof using Type.
  induction l as [|y l IH]; csimpl; [done|]. unfold id at 1.
  destruct (lt (key y) (key x)); csimpl; by rewrite ?IH.
Qed.

Lemma sorted_keys l : key <$> Py.sorted lt key l = Py.sorted lt id (key <$> l).
Proof using Type.
  induction l as [|x l IH]; csimpl; [done|].
  fold (Py.sorted lt key l) (Py.sorted lt id (key <$> l)).
  by rewrite insert_sorted_keys, IH.
Qed.

Lemma insert_sorted_Sorted (x : K) l :
  Sorted (key_le lt) l -> Sorted (key_le lt) (Py.insert_sorted lt id x l).
Proof using lt_asym.
  induction 1 as [|y l Hl IH Hhd]; simpl; [by repeat constructor|].
  destruct (lt y x) eqn:Hyx.
  - constructor; [done|].
    destruct Hhd as [|z l Hyz]; simpl.
    + constructor. by apply lt_asym.
    + destruct (lt z x); constructor; [done|]. by apply lt_asym.
  - constructor; [by constructor|]. by constructor.
Qed.

Lemma sorted_Sorted (l : list K) : Sorted (key_le lt) (Py.sorted lt id l).
Proof using lt_asym.
  induction l as [|x l IH]; simpl; [constructor|].
  by apply insert_sorted_Sorted.
Qed.

(** The keys of the sorted list do not depend on the order of the input. *)
Lemma sorted_keys_Permutation l l' :
  l ≡ₚ l' -> key <$> Py.sorted lt key l = key <$> Py.sorted lt key l'.
Proof using lt_asym lt_trichotomy lt_trans.
  intros Hp. rewrite !sorted_keys.
  assert (Hi : forall (y : K) m, Py.insert_sorted lt id y m ≡ₚ y :: m).
  { intros y m. induction m as [|z m IHm]; simpl; [done|].
    destruct (lt z y); [|done]. rewrite IHm. apply Permutation_swap. }
  assert (Hs : forall k : list K, Py.sorted lt id k ≡ₚ k).
  { induction k as [|x k IH]; simpl; [done|].
    fold (Py.sorted lt id k). by rewrite Hi, IH. }
  pose proof le_transitive. pose proof le_antisymm.
  apply (Sorted_unique (key_le lt)); auto using sorted_Sorted.
  by rewrite !Hs, Hp.
Qed.

End Sorted.

(** Sorting with two orders that agree gives the same list. *)
Lemma sorted_ext {A K K'} (lt : K -> K -> bool) (lt' : K' -> K' -> bool)
    (key : A -> K) (key' : A -> K') (l : list A) :
  (forall x y, lt (key x) (key y) = lt' (key' x) (key' y)) ->
  Py.sorted lt key l = Py.sorted lt' key' l.
Proof.
  intros Hext. induction l as [|x l IH]; simpl; [done|].
  fold (Py.sorted lt key l) (Py.sorted lt' key' l). rewrite IH.
  generalize (Py.sorted lt' key' l). intros m.
  induction m as [|y m IHm]; simpl; [done|].
  by rewrite Hext, IHm.
Qed.

(** ** Type inference *)

Lemma dict_get_set k v d k' :
  dict_get (dict_set k v d) k' = if String.eqb k k' then Some v else dict_get d k'.
Proof.
  induction d as [|[k0 v0] d IH]; simpl; [done|].
  destruct (String.eqb_spec k0 k) as [->|Hne]; simpl.
  - by destruct (String.eqb k k').
  - rewrite IH. destruct (String.eqb_spec k0 k') as [->|]; [|done].
    by destruct (String.eqb_spec k k').
Qed.

(** Every header has its entry: the type inferred from its own column. *)
Lemma infer_column_types_get headers rows h :
  h ∈ headers ->
  dict_get (infer_column_types headers rows) h
  = Some (infer_values (column_values h rows)).
Proof.
  unfold infer_column_types. generalize (@nil (string * string)).
  induction headers as [|x headers IH] using rev_ind; intros acc Hin.
  - inversion Hin.
  - rewrite foldl_app. simpl. rewrite dict_get_set.
    destruct (String.eqb_spec x h) as [->|Hne]; [done|].
    apply IH. apply elem_of_app in Hin as [Hin|Hin]; [done|].
    by apply list_elem_of_singleton in Hin.
Qed.

Lemma col_type_inferred headers rows h :
  h ∈ headers ->
  col_type (infer_column_types headers rows) h = infer_values (column_values h rows).
Proof. intros Hin. unfold col_type. by rewrite infer_column_types_get. Qed.

Lemma elem_of_column_values v h rows :
  v ∈ column_values h rows <-> v <> "" /\ exists r, r ∈ rows /\ row_get r h = CStr v.
Proof.
  unfold column_values. rewrite list_elem_of_omap. split.
  - intros (r & Hr & Hv). destruct (row_get r h) as [|s] eqn:Hcell; [done|].
    destruct (String.eqb_spec s ""); [done|]. simplify_eq. eauto.
  - intros (Hne & r & Hr & Hv). exists r. rewrite Hv.
    by destruct (String.eqb_spec v "").
Qed.

Lemma foldl_max_le x l B :
  foldl Z.max x l <= B <-> x <= B /\ Forall (fun z => z <= B) l.
Proof.
  revert x. induction l as [|y l IH]; intros x; simpl.
  - rewrite Forall_nil. tauto.
  - rewrite IH, Forall_cons, Z.max_lub_iff. tauto.
Qed.

Lemma max_of_le l B : l <> [] -> max_of l <= B <-> Forall (fun z => z <= B) l.
Proof. destruct l; [done|]. intros _. simpl. by rewrite foldl_max_le, Forall_cons. Qed.

Lemma infer_values_int values ints :
  values <> [] -> mapM Py.int values = Some ints ->
  infer_values values
  = if max_of (Z.abs <$> ints) <=? 2147483647 then "INT" else "BIGINT".
Proof. intros Hne Hints. unfold infer_values. destruct values; [done|]. by rewrite Hints. Qed.

(** What the inferred type says about the values it was inferred from. *)
Lemma infer_values_cases values :
  (infer_values values ∈ ["INT"; "BIGINT"] /\ Forall (fun v => is_Some (Py.int v)) values)
  \/ (infer_values values = "DECIMAL(18,6)"
      /\ mapM Py.int values = None
      /\ Forall (fun v => is_Some (Py.float_of_str v)) values)
  \/ (infer_values values ∈ text_or_date_types
      /\ (values = [] \/ (mapM Py.int values = None /\ mapM Py.float_of_str values = None))).
Proof.
  unfold infer_values, text_or_date_types. destruct values as [|v0 vs] eqn:Hv.
  { right. right. split; [set_solver|by left]. }
  rewrite <- Hv. clear Hv.
  destruct (mapM Py.int values) as [ints|] eqn:Hint.
  { left. split; [destruct (_ <=? _); set_solver|].
    by apply (mapM_is_Some_1 Py.int). }
  destruct (mapM Py.float_of_str values) as [fs|] eqn:Hfl.
  { right. left. split; [done|]. split; [done|].
    by apply (mapM_is_Some_1 Py.float_of_str). }
  right. right. split; [|by right].
  repeat (match goal with |- context [if ?b then _ else _] => destruct b end);
    set_solver.
Qed.

Lemma string_eqb_false s t : s <> t -> String.eqb s t = false.
Proof. by destruct (String.eqb_spec s t). Qed.

Lemma convert_value_int s t :
  s <> "" -> t ∈ ["INT"; "BIGINT"] ->
  convert_value (CStr s) t
  = match Py.int s with Some z => Ret (VInt z) | None => Raise Py.ValueError end.
Proof.
  intros Hs Ht. unfold convert_value. rewrite (string_eqb_false _ _ Hs).
  apply elem_of_cons in Ht as [->|Ht]; [done|].
  apply elem_of_cons in Ht as [->|Ht]; [done|]. inversion Ht.
Qed.

Lemma convert_value_decimal s :
  s <> "" ->
  convert_value (CStr s) "DECIMAL(18,6)"
  = match Py.float_of_str s with Some f => Ret (VFloat f) | None => Raise Py.ValueError end.
Proof. intros Hs. unfold convert_value. by rewrite (string_eqb_false _ _ Hs). Qed.

Lemma convert_value_text s t :
  s <> "" -> t ∈ text_or_date_types -> convert_value (CStr s) t = Ret (VStr s).
Proof.
  intros Hs Ht. unfold convert_value. rewrite (string_eqb_false _ _ Hs).
  unfold text_or_date_types in Ht.
  repeat (apply elem_of_cons in Ht as [->|Ht]; [done|]). inversion Ht.
Qed.

(** A value converts under the type inferred from a column it is in. *)
Lemma convert_value_inferred values v :
  v ∈ values -> v <> "" ->
  exists x, convert_value (CStr v) (infer_values values) = Ret x.
Proof.
  intros Hin Hne.
  destruct (infer_values_cases values) as [[Ht Hall]|[(Ht & _ & Hall)|[Ht _]]].
  - rewrite (convert_value_int _ _ Hne Ht).
    rewrite Forall_forall in Hall. destruct (Hall v Hin) as [z ->]. eauto.
  - rewrite Ht, (convert_value_decimal _ Hne).
    rewrite Forall_forall in Hall. destruct (Hall v Hin) as [f ->]. eauto.
  - rewrite (convert_value_text _ _ Hne Ht). eauto.
Qed.

Lemma convert_cell_inferred headers rows r h :
  r ∈ rows -> h ∈ headers ->
  exists x,
    convert_value (row_get r h) (col_type (infer_column_types headers rows) h) = Ret x.
Proof.
  intros Hr Hh. rewrite (col_type_inferred _ _ _ Hh).
  destruct (row_get r h) as [|s] eqn:Hcell; [by exists VNone|].
  destruct (String.eqb_spec s "") as [->|Hne]; [by exists VNone|].
  apply convert_value_inferred; [|done].
  apply elem_of_column_values. eauto.
Qed.

(** ** Database operations *)

Lemma schema_exists_run sn c :
  schema_exists sn c
  = (Ret (bool_decide (sn ∈ schemas c)), Db.log (Execute (SelectSchemaCount sn)) c).
Proof.
  unfold schema_exists, Db.bind, Db.execute. simpl.
  by destruct (bool_decide (sn ∈ schemas c)).
Qed.

Lemma table_exists_run sn tn c :
  table_exists sn tn c
  = (Ret (bool_decide (is_Some (tables c !! (sn, tn)))),
     Db.log (Execute (SelectTableCount sn tn)) c).
Proof.
  unfold table_exists, Db.bind, Db.execute. simpl.
  by destruct (bool_decide (is_Some (tables c !! (sn, tn)))).
Qed.

Lemma convert_row_Ret col_types headers r vs :
  convert_row col_types headers r = Ret vs <->
  Forall2 (fun h v => convert_value (row_get r h) (col_type col_types h) = Ret v)
          headers vs.
Proof.
  revert vs. induction headers as [|h headers IH]; intros vs; simpl.
  - split; [intros [= <-]; constructor|by inversion 1].
  - destruct (convert_value (row_get r h) (col_type col_types h)) as [v|e] eqn:Hv.
    + destruct (convert_row col_types headers r) as [vs'|e'] eqn:Hvs.
      * split.
        -- intros [= <-]. constructor; [done|]. by apply IH.
        -- inversion 1 as [|? v' ? vs'' Hv' Hrest]; simplify_eq.
           apply IH in Hrest. congruence.
      * split; [done|]. inversion 1 as [|? v' ? vs'' Hv' Hrest]; simplify_eq.
        by apply IH in Hrest.
    + split; [done|]. inversion 1; congruence.
Qed.

Lemma convert_row_inferred headers rows r :
  r ∈ rows ->
  exists vs, convert_row (infer_column_types headers rows) headers r = Ret vs.
Proof.
  intros Hr.
  assert (Hsub : forall hs, hs ⊆ headers ->
            exists vs, convert_row (infer_column_types headers rows) hs r = Ret vs).
  { induction hs as [|h hs IH]; intros Hsub; [by exists []|].
    destruct (convert_cell_inferred headers rows r h) as [v Hv]; [done|set_solver|].
    destruct IH as [vs Hvs]; [set_solver|].
    exists (v :: vs). simpl. by rewrite Hv, Hvs. }
  by apply Hsub.
Qed.

(** The insertion loop on a table that exists, with rows that convert. *)
Lemma insert_rows_run sn tn col_types headers rs : forall acc c data,
  tables c !! (sn, tn) = Some data ->
  Forall (fun r => exists vs, convert_row col_types headers r = Ret vs) rs ->
  exists vss c',
    insert_rows sn tn col_types headers rs acc c
    = (Ret (acc + Z.of_nat (length rs)), c')
    /\ Forall2 (fun r vs => convert_row col_types headers r = Ret vs) rs vss
    /\ schemas c' = schemas c
    /\ tables c' !! (sn, tn) = Some (data ++ vss)
    /\ (forall k, k <> (sn, tn) -> tables c' !! k = tables c !! k)
    /\ trace c'
       = trace c ++ ((fun vs => Execute (InsertInto sn tn headers vs)) <$> vss).
Proof.
  induction rs as [|r rs IH]; intros acc c data Hdata Hconv.
  - exists [], c. simpl. rewrite !app_nil_r, Z.add_0_r. by repeat split.
  - apply Forall_cons in Hconv as [[vs Hvs] Hconv].
    set (c1 := {| schemas := schemas c;
                  tables := alter (fun d => d ++ [vs]) (sn, tn) (tables c);
                  trace := trace c ++ [Execute (InsertInto sn tn headers vs)] |}).
    destruct (IH (acc + 1) c1 (data ++ [vs])) as (vss & c' & Hrun & Hall & Hs & Ht & Hf & Htr);
      [by simpl; rewrite lookup_alter_eq, Hdata|done|].
    exists (vs :: vss), c'. split_and!.
    + simpl. unfold Db.bind at 1. unfold lift at 1. rewrite Hvs.
      unfold Db.bind at 1. unfold Db.execute, Db.backend. simpl.
      rewrite bool_decide_true by (by rewrite Hdata).
      fold c1. rewrite Hrun. do 2 f_equal. lia.
    + by constructor.
    + done.
    + by rewrite Ht, <- app_assoc.
    + intros k Hk. rewrite (Hf k Hk). simpl. by rewrite lookup_alter_ne.
    + rewrite Htr. simpl. by rewrite <- app_assoc.
Qed.

(** Import into a table that exists already. *)
Lemma import_csv_run file headers sn tn create_table truncate c data :
  fieldnames file = Some headers -> headers <> [] -> rows file <> [] ->
  tables c !! (sn, tn) = Some data ->
  exists vss c',
    import_csv file sn tn create_table truncate c
    = (Ret (Z.of_nat (length (rows file))), c')
    /\ Forall2 (fun r vs =>
                  convert_row (infer_column_types headers (rows file)) headers r = Ret vs)
               (rows file) vss
    /\ tables c' !! (sn, tn) = Some ((if truncate then [] else data) ++ vss).
Proof.
  intros Hfn Hh Hrows Hdata. unfold import_csv. rewrite Hfn.
  destruct headers as [|h0 hs]; [done|]. set (headers := h0 :: hs) in *.
  destruct (rows file) as [|r0 rs] eqn:Hrs; [done|]. set (rows := r0 :: rs) in *.
  set (col_types := infer_column_types headers rows).
  assert (Hconv : Forall (fun r => exists vs, convert_row col_types headers r = Ret vs) rows).
  { apply Forall_forall. intros r Hr. by apply convert_row_inferred. }
  (* table creation is skipped *)
  set (c1 := if create_table then Db.log (Execute (SelectTableCount sn tn)) c else c).
  assert (Hc1 : tables c1 = tables c) by (by destruct create_table).
  (* truncation *)
  set (c2 := if truncate
             then {| schemas := schemas c1;
                     tables := <[(sn, tn) := []]> (tables c1);
                     trace := (trace c1 ++ [Execute (SelectTableCount sn tn)])
                                ++ [Execute (TruncateTable sn tn)] |}
             else c1).
  assert (Hc2 : tables c2 !! (sn, tn) = Some (if truncate then [] else data)).
  { unfold c2. destruct truncate; simpl; [by rewrite lookup_insert_eq|by rewrite Hc1]. }
  destruct (insert_rows_run sn tn col_types headers rows 0 c2 _ Hc2 Hconv)
    as (vss & c3 & Hrun & Hall & _ & Ht & _ & _).
  exists vss, (Db.log Commit c3). split_and!; [|done|done].
  unfold Db.bind at 1.
  assert (Hstep1 :
    (if create_table
     then Db.bind (table_exists sn tn) (fun present =>
            if negb present
            then Db.bind (Db.execute (CreateTable sn tn col_types)) (fun _ => Db.commit)
            else Db.ret ())
     else Db.ret ()) c = (Ret (), c1)).
  { unfold c1. destruct create_table; [|done].
    unfold Db.bind. rewrite table_exists_run.
    by rewrite bool_decide_true by (by rewrite Hdata). }
  rewrite Hstep1. unfold Db.bind at 1.
  assert (Hstep2 :
    (if truncate
     then Db.bind (table_exists sn tn) (fun present =>
            if present
            then Db.bind (Db.execute (TruncateTable sn tn)) (fun _ => Db.ret ())
            else Db.ret ())
     else Db.ret ()) c1 = (Ret (), c2)).
  { unfold c2. destruct truncate; [|done].
    unfold Db.bind at 1. rewrite table_exists_run.
    rewrite bool_decide_true by (by rewrite Hc1, Hdata).
    unfold Db.bind, Db.execute, Db.backend. simpl.
    by rewrite bool_decide_true by (by rewrite Hc1, Hdata). }
  rewrite Hstep2. unfold Db.bind at 1. rewrite Hrun.
  unfold Db.bind, Db.commit, Db.ret. simpl. done.
Qed.

Lemma convert_value_blank c t : text_of c = None -> convert_value c t = Ret VNone.
Proof. destruct c as [|s]; simpl; [done|]. by destruct (String.eqb s ""). Qed.

Lemma convert_value_same_text c c' t :
  text_of c = text_of c' -> convert_value c t = convert_value c' t.
Proof.
  destruct (text_of c) as [s|] eqn:Hc.
  - intros Hc'. assert (c = CStr s) as ->.
    { destruct c as [|s0]; simpl in *; [done|].
      destruct (String.eqb s0 ""); congruence. }
    assert (c' = CStr s) as ->; [|done].
    destruct c' as [|s0]; simpl in *; [done|].
    destruct (String.eqb s0 ""); congruence.
  - intros Hc'. by rewrite !convert_value_blank.
Qed.

Lemma column_values_same_text h rows rows' :
  Forall2 same_text rows rows' -> column_values h rows = column_values h rows'.
Proof.
  intros Hrows. unfold column_values. apply list_omap_ext.
  eapply Forall2_impl; [exact Hrows|]. intros r r' Hr. exact (Hr h).
Qed.

Lemma infer_column_types_same_text headers rows rows' :
  Forall2 same_text rows rows' ->
  infer_column_types headers rows = infer_column_types headers rows'.
Proof.
  intros Hrows. unfold infer_column_types. generalize (@nil (string * string)).
  induction headers as [|h headers IH]; intros acc; simpl; [done|].
  by rewrite IH, (column_values_same_text h rows rows').
Qed.

Lemma convert_row_same_text col_types headers r r' :
  same_text r r' -> convert_row col_types headers r = convert_row col_types headers r'.
Proof.
  intros Hr. induction headers as [|h headers IH]; simpl; [done|].
  by rewrite IH, (convert_value_same_text _ (row_get r' h)).
Qed.

Lemma bind_ext {A B} (m m' : Db.M A) (k k' : A -> Db.M B) c :
  (forall c, m c = m' c) -> (forall a c, k a c = k' a c) ->
  Db.bind m k c = Db.bind m' k' c.
Proof.
  intros Hm Hk. unfold Db.bind. rewrite Hm.
  destruct (m' c) as [[a|e] c']; [apply Hk|done].
Qed.

Lemma insert_rows_same_text sn tn col_types headers rs rs' :
  Forall2 same_text rs rs' ->
  forall acc c,
    insert_rows sn tn col_types headers rs acc c
    = insert_rows sn tn col_types headers rs' acc c.
Proof.
  induction 1 as [|r r' rs rs' Hr _ IH]; intros acc c; [done|].
  simpl. rewrite (convert_row_same_text _ _ r r' Hr).
  apply bind_ext; [done|]. intros vs c1.
  apply bind_ext; [done|]. intros _ c2. apply IH.
Qed.

Lemma import_csv_same_text fn rs rs' sn tn create_table truncate c :
  Forall2 same_text rs rs' ->
  import_csv {| fieldnames := fn; rows := rs |} sn tn create_table truncate c
  = import_csv {| fieldnames := fn; rows := rs' |} sn tn create_table truncate c.
Proof.
  intros Hrows. unfold import_csv. cbn [fieldnames rows].
  destruct fn as [[|h hs]|]; [done| |done].
  pose proof (infer_column_types_same_text (h :: hs) rs rs' Hrows) as Hinf.
  pose proof (insert_rows_same_text sn tn
    (infer_column_types (h :: hs) rs') (h :: hs) rs rs' Hrows) as Hins.
  destruct Hrows as [|r r' rs rs' Hr Hrows]; [done|].
  cbv zeta. rewrite Hinf.
  apply bind_ext; [done|]. intros _ c1.
  apply bind_ext; [done|]. intros _ c2.
  apply bind_ext; [apply Hins|done].
Qed.

Lemma same_text_refl r : same_text r r.
Proof. by intros h. Qed.

Lemma same_text_delete r h :
  text_of (row_get r h) = None -> same_text r (delete h r).
Proof.
  intros Hblank h'. unfold row_get in *.
  destruct (decide (h = h')) as [<-|Hne].
  - by rewrite lookup_delete_eq, Hblank.
  - by rewrite lookup_delete_ne.
Qed.

Lemma same_text_insert_None r h :
  text_of (row_get r h) = None -> same_text r (<[h := CNone]> r).
Proof.
  intros Hblank h'. unfold row_get in *.
  destruct (decide (h = h')) as [<-|Hne].
  - by rewrite lookup_insert_eq, Hblank.
  - by rewrite lookup_insert_ne.
Qed.

(** ** Comparison *)

Lemma float_eq_sym a b : Py.float_eq a b = Py.float_eq b a.
Proof.
  destruct a as [|s|s m e], b as [|t|t m' e']; simpl; try done.
  - by destruct s, t.
  - rewrite (Z.eqb_sym m' m), (Z.eqb_sym e' e), (andb_comm (m' =? 0)).
    by destruct s, t.
Qed.

Lemma cells_differ_sym v1 v2 : cells_differ v1 v2 = cells_differ v2 v1.
Proof.
  unfold cells_differ. rewrite (String.eqb_sym v2 v1).
  destruct (String.eqb v1 v2); [done|].
  destruct (Py.float_of_str v1), (Py.float_of_str v2); try done.
  by rewrite float_eq_sym.
Qed.

Lemma compare_rows_nil hs i rr : compare_rows hs i rr = [] <-> cells_agree hs rr.
Proof.
  unfold compare_rows, cells_agree. induction hs as [|h hs IH]; csimpl.
  - split; [intros _ h Hin; inversion Hin|done].
  - destruct (cells_differ (str (row_get rr.1 h)) (str (row_get rr.2 h))) eqn:Hd; csimpl.
    + split; [done|]. intros Hall. specialize (Hall h (list_elem_of_here _ _)). congruence.
    + rewrite IH. split; intros Hall h' Hin.
      * apply elem_of_cons in Hin as [->|Hin]; auto.
      * apply Hall. by right.
Qed.

Lemma cell_diffs_nil hs l :
  concat (imap (compare_rows hs) l) = [] <-> Forall (cells_agree hs) l.
Proof.
  assert (Hgen : forall f : nat -> row * row -> list difference,
             (forall i rr, f i rr = [] <-> cells_agree hs rr) ->
             concat (imap f l) = [] <-> Forall (cells_agree hs) l).
  { induction l as [|rr l IH]; intros f Hf; simpl.
    - split; [constructor|done].
    - rewrite Forall_cons, app_nil, Hf. rewrite (IH (f ∘ S)); [done|].
      intros i rr'. apply Hf. }
  apply Hgen. intros i rr. apply compare_rows_nil.
Qed.

(** The result on well-formed files, and when its flag is set. *)
Lemma compare_csv_files_run file1 file2 ignore_order headers1 headers2 :
  fieldnames file1 = Some headers1 -> fieldnames file2 = Some headers2 ->
  exists m d,
    compare_csv_files file1 file2 ignore_order = Ret (m, d)
    /\ (m = true <-> d = [])
    /\ (d = [] <->
        header_sets_differ headers1 headers2 = false
        /\ length (rows file1) = length (rows file2)
        /\ Forall (cells_agree headers1)
                  (paired_rows headers1 (rows file1) (rows file2) ignore_order)).
Proof.
  intros H1 H2. unfold compare_csv_files. rewrite H1, H2.
  set (hd := if header_sets_differ headers1 headers2
             then [HeadersDiffer headers1 headers2] else []).
  set (cd := if negb (length (rows file1) =? length (rows file2))%nat
             then [RowCountDiffers (length (rows file1)) (length (rows file2))]
             else []).
  assert (Hres : exists m d,
    (let '(rows1_sorted, rows2_sorted) :=
       if ignore_order
       then (Py.sorted Py.tuple_lt (row_key headers1) (rows file1),
             Py.sorted Py.tuple_lt (row_key headers1) (rows file2))
       else (rows file1, rows file2) in
     Ret ((length (hd ++ cd ++
             concat (imap (compare_rows headers1) (zip rows1_sorted rows2_sorted))) =? 0)%nat,
          hd ++ cd ++
             concat (imap (compare_rows headers1) (zip rows1_sorted rows2_sorted))))
    = Ret (m, d)
    /\ (m = true <-> d = [])
    /\ d = hd ++ cd ++ concat (imap (compare_rows headers1)
               (paired_rows headers1 (rows file1) (rows file2) ignore_order))).
  { unfold paired_rows. destruct ignore_order; eexists _, _;
      (split; [reflexivity|]); (split; [|reflexivity]);
      rewrite Nat.eqb_eq; apply length_zero_iff_nil. }
  destruct Hres as (m & d & Hrun & Hm & Hd). exists m, d. split_and!; [done..|].
  rewrite Hd, !app_nil, cell_diffs_nil. unfold hd, cd.
  destruct (header_sets_differ headers1 headers2);
    destruct (Nat.eqb_spec (length (rows file1)) (length (rows file2))); simpl;
    intuition congruence.
Qed.

Lemma header_sets_agree headers1 headers2 :
  header_sets_differ headers1 headers2 = false <->
  forall h, h ∈ headers1 <-> h ∈ headers2.
Proof.
  unfold header_sets_differ. rewrite negb_false_iff, bool_decide_eq_true.
  split.
  - intros Heq h. by rewrite <- !(elem_of_list_to_set (C := gset string)), Heq.
  - intros Hall. apply set_eq. intros h. by rewrite !elem_of_list_to_set.
Qed.

Lemma Forall_zip_flip {A} (P Q : A * A -> Prop) (l k : list A) :
  (forall a b, P (a, b) <-> Q (b, a)) ->
  Forall P (zip l k) <-> Forall Q (zip k l).
Proof.
  intros HPQ. revert k. induction l as [|a l IH]; intros [|b k]; simpl.
  1-3: by split; constructor.
  by rewrite !Forall_cons, IH, HPQ.
Qed.

(** *** The sort key and the header set *)

Lemma sorted_headers_StronglySorted hs :
  StronglySorted str_le (Py.sorted Py.str_lt id hs).
Proof.
  apply Sorted_StronglySorted.
  - apply le_transitive;
      [apply str_lt_asym|apply str_lt_trichotomy|apply str_lt_trans].
  - apply sorted_Sorted, str_lt_asym.
Qed.

Lemma elem_of_sorted_headers h hs : h ∈ Py.sorted Py.str_lt id hs <-> h ∈ hs.
Proof. by rewrite sorted_Permutation. Qed.

(** On a sorted list of headers, the tuple order looks at the least header
    under which the two rows differ. *)
Lemma tuple_lt_fmap_sorted (f g : string -> string) l :
  StronglySorted str_le l ->
  Py.tuple_lt (f <$> l) (g <$> l) = true <->
  exists h, h ∈ l /\ Py.str_lt (f h) (g h) = true
            /\ forall h', h' ∈ l -> f h' <> g h' -> str_le h h'.
Proof.
  induction 1 as [|x l Hl IH Hx]; csimpl.
  - split; [done|]. intros (h & Hin & _). inversion Hin.
  - rewrite Forall_forall in Hx.
    destruct (String.eqb_spec (f x) (g x)) as [Heq|Hne].
    + rewrite IH. split; intros (h & Hin & Hlt & Hmin).
      * exists h. split_and!; [by right|done|].
        intros h' Hin' Hne. apply elem_of_cons in Hin' as [->|Hin']; [done|auto].
      * exists h. apply elem_of_cons in Hin as [->|Hin].
        { rewrite Heq, str_lt_irrefl in Hlt. done. }
        split_and!; [done..|]. intros h' Hin' Hne. apply Hmin; [by right|done].
    + split.
      * intros Hlt. exists x. split_and!; [by left|done|].
        intros h' Hin' _. apply elem_of_cons in Hin' as [->|Hin']; [|auto].
        apply str_lt_irrefl.
      * intros (h & Hin & Hlt & Hmin).
        assert (h = x) as ->; [|done].
        apply elem_of_cons in Hin as [->|Hin]; [done|].
        apply str_lt_trichotomy.
        -- apply Hx, Hin.
        -- apply Hmin; [by left|done].
Qed.

Lemma tuple_lt_row_key headers1 headers2 r r' :
  (forall h, h ∈ headers1 <-> h ∈ headers2) ->
  Py.tuple_lt (row_key headers1 r) (row_key headers1 r')
  = Py.tuple_lt (row_key headers2 r) (row_key headers2 r').
Proof.
  intros Hset. apply eq_true_iff_eq. unfold row_key.
  rewrite !tuple_lt_fmap_sorted by apply sorted_headers_StronglySorted.
  split; intros (h & Hin & Hlt & Hmin); exists h;
    (split_and!; [by apply elem_of_sorted_headers, Hset, elem_of_sorted_headers|done|]);
    intros h' Hin'; apply Hmin;
    by apply elem_of_sorted_headers, Hset, elem_of_sorted_headers.
Qed.

(** The key of a row fixes its cells under the headers. *)
Lemma row_key_cells hs r r' :
  row_key hs r = row_key hs r' ->
  forall h, h ∈ hs -> str (row_get r h) = str (row_get r' h).
Proof.
  unfold row_key. intros Heq h Hin. apply elem_of_sorted_headers in Hin.
  induction (Py.sorted Py.str_lt id hs) as [|x l IH]; [inversion Hin|].
  injection Heq as Hx Hl. apply elem_of_cons in Hin as [->|Hin]; auto.
Qed.

Lemma compare_rows_keys hs i r1 r1' r2 r2' :
  row_key hs r1 = row_key hs r1' -> row_key hs r2 = row_key hs r2' ->
  compare_rows hs i (r1, r2) = compare_rows hs i (r1', r2').
Proof.
  intros H1 H2. pose proof (row_key_cells hs _ _ H1) as Hc1.
  pose proof (row_key_cells hs _ _ H2) as Hc2. unfold compare_rows. simpl.
  clear H1 H2. induction hs as [|h hs IH]; csimpl; [done|].
  rewrite Hc1, Hc2 by left. rewrite IH; [done|intros; apply Hc1|intros; apply Hc2];
    by right.
Qed.

Lemma cell_diffs_keys hs : forall l1 l1' l2 l2',
  row_key hs <$> l1 = row_key hs <$> l1' ->
  row_key hs <$> l2 = row_key hs <$> l2' ->
  concat (imap (compare_rows hs) (zip l1 l2))
  = concat (imap (compare_rows hs) (zip l1' l2')).
Proof.
  assert (Hgen : forall l1 l1' l2 l2' (f : nat -> nat),
    row_key hs <$> l1 = row_key hs <$> l1' ->
    row_key hs <$> l2 = row_key hs <$> l2' ->
    imap (fun i => compare_rows hs (f i)) (zip l1 l2)
    = imap (fun i => compare_rows hs (f i)) (zip l1' l2')).
  { induction l1 as [|r1 l1 IH]; intros [|r1' l1'] l2 l2' f H1 H2; try done.
    destruct l2 as [|r2 l2], l2' as [|r2' l2']; try done.
    injection H1 as Hr1 H1. injection H2 as Hr2 H2. simpl.
    rewrite (compare_rows_keys hs _ r1 r1' r2 r2') by done. f_equal.
    apply (IH l1' l2 l2' (f ∘ S)); done. }
  intros l1 l1' l2 l2' H1 H2. f_equal. apply (Hgen l1 l1' l2 l2' id H1 H2).
Qed.

Lemma cells_agree_flip headers1 headers2 r1 r2 :
  (forall h, h ∈ headers1 <-> h ∈ headers2) ->
  cells_agree headers1 (r1, r2) -> cells_agree headers2 (r2, r1).
Proof.
  intros Hset Hall h Hin. simpl. rewrite cells_differ_sym. by apply Hall, Hset.
Qed.

(** The conditions under which the files match do not depend on which file is
    given first. *)
Lemma match_conditions_flip headers1 headers2 rows1 rows2 ignore_order :
  header_sets_differ headers1 headers2 = false
  /\ length rows1 = length rows2
  /\ Forall (cells_agree headers1) (paired_rows headers1 rows1 rows2 ignore_order) ->
  header_sets_differ headers2 headers1 = false
  /\ length rows2 = length rows1
  /\ Forall (cells_agree headers2) (paired_rows headers2 rows2 rows1 ignore_order).
Proof.
  intros (Hh & Hl & Hf). rewrite header_sets_agree in Hh.
  assert (Hh' : forall h, h ∈ headers2 <-> h ∈ headers1) by (intros h; by rewrite Hh).
  split_and!; [by apply header_sets_agree|done|].
  assert (Hflip : forall a b,
            cells_agree headers1 (a, b) <-> cells_agree headers2 (b, a)).
  { intros a b. split; by apply cells_agree_flip. }
  unfold paired_rows in *. destruct ignore_order.
  - rewrite (sorted_ext Py.tuple_lt Py.tuple_lt (row_key headers2) (row_key headers1) rows2),
      (sorted_ext Py.tuple_lt Py.tuple_lt (row_key headers2) (row_key headers1) rows1)
      by (intros; by apply tuple_lt_row_key).
    by apply (Forall_zip_flip (cells_agree headers1) (cells_agree headers2)).
  - by apply (Forall_zip_flip (cells_agree headers1) (cells_agree headers2)).
Qed.

Lemma row_keys_Permutation hs (l l' : list row) :
  l ≡ₚ l' ->
  row_key hs <$> Py.sorted Py.tuple_lt (row_key hs) l
  = row_key hs <$> Py.sorted Py.tuple_lt (row_key hs) l'.
Proof.
  apply sorted_keys_Permutation;
    [apply tuple_lt_asym|apply tuple_lt_trichotomy|apply tuple_lt_trans].
Qed.

Lemma convert_row_types headers rows r vs :
  convert_row (infer_column_types headers rows) headers r = Ret vs ->
  Forall2 (fun h v =>
             convert_value (row_get r h) (infer_values (column_values h rows)) = Ret v)
          headers vs.
Proof.
  rewrite convert_row_Ret.
  assert (Hsub : forall hs ws,
    (forall h, h ∈ hs -> h ∈ headers) ->
    Forall2 (fun h v =>
               convert_value (row_get r h)
                 (col_type (infer_column_types headers rows) h) = Ret v) hs ws ->
    Forall2 (fun h v =>
               convert_value (row_get r h) (infer_values (column_values h rows)) = Ret v)
            hs ws).
  { intros hs ws Hin Hall.
    induction Hall as [|h v hs ws Hv _ IH]; constructor.
    - rewrite <- (col_type_inferred headers); [done|]. apply Hin. by left.
    - apply IH. intros h' Hh'. apply Hin. by right. }
  by apply Hsub.
Qed.

(** * The specification's claims *)

(** ** Type inference *)

(** C1, as amended.  For a header whose column has at least one non-empty
    value, and only integers among its non-empty values,
    [infer_column_types] gives ['INT'] when every absolute value is at most
    2147483647 and ['BIGINT'] when some absolute value is larger. *)
Theorem infer_integer_column headers rows h :
  h ∈ headers ->
  column_values h rows <> [] ->
  (forall v, v ∈ column_values h rows -> is_Some (Py.int v)) ->
  ((forall v z, v ∈ column_values h rows -> Py.int v = Some z ->
                Z.abs z <= 2147483647) ->
   dict_get (infer_column_types headers rows) h = Some "INT")
  /\ ((exists v z, v ∈ column_values h rows /\ Py.int v = Some z
                   /\ 2147483647 < Z.abs z) ->
      dict_get (infer_column_types headers rows) h = Some "BIGINT").
Proof.
  intros Hh Hne Hints. rewrite (infer_column_types_get _ _ _ Hh).
  destruct (mapM_is_Some_2 Py.int (column_values h rows)) as [ints Hmap].
  { by apply Forall_forall. }
  rewrite (infer_values_int _ ints Hne Hmap).
  apply mapM_Some in Hmap.
  assert (Hne' : Z.abs <$> ints <> []).
  { destruct Hmap; [done|]. by csimpl. }
  split.
  - intros Hsmall. destruct (Z.leb_spec (max_of (Z.abs <$> ints)) 2147483647) as [|Hlt];
      [done|].
    exfalso. apply Z.lt_nge in Hlt. apply Hlt, max_of_le; [done|].
    apply Forall_fmap. apply (Forall2_Forall_r _ _ _ _ Hmap).
    apply Forall_forall. intros v Hv z Hz. by apply (Hsmall v z).
  - intros (v & z & Hv & Hz & Hbig).
    destruct (Z.leb_spec (max_of (Z.abs <$> ints)) 2147483647) as [Hle|]; [|done].
    exfalso. apply max_of_le in Hle; [|done].
    apply list_elem_of_lookup in Hv as [i Hi].
    destruct (Forall2_lookup_l _ _ _ _ _ Hmap Hi) as (z' & Hi' & Hz').
    assert (z' = z) as -> by congruence.
    rewrite Forall_forall in Hle.
    specialize (Hle (Z.abs z)). simpl in Hle.
    assert (Z.abs z ∈ Z.abs <$> ints).
    { apply list_elem_of_fmap. exists z. split; [done|].
      apply list_elem_of_lookup. eauto. }
    specialize (Hle H). lia.
Qed.

Lemma infer_integer_column_witness :
  dict_get (infer_column_types ["id"; "note"] (rows ids_file)) "id" = Some "INT".
Proof.
  assert (Hvals : column_values "id" (rows ids_file) = ["1"; "-7"])
    by (vm_compute; reflexivity).
  apply (infer_integer_column ["id"; "note"] (rows ids_file) "id").
  - by left.
  - by rewrite Hvals.
  - rewrite Hvals. intros v Hv.
    apply elem_of_cons in Hv as [->|Hv]; [by eexists|].
    apply elem_of_cons in Hv as [->|Hv]; [by eexists|]. inversion Hv.
  - rewrite Hvals. intros v z Hv.
    apply elem_of_cons in Hv as [->|Hv];
      [intros Hz; vm_compute in Hz; injection Hz as <-; lia|].
    apply elem_of_cons in Hv as [->|Hv];
      [intros Hz; vm_compute in Hz; injection Hz as <-; lia|].
    inversion Hv.
Defined.

(** C1 as the specification has it fails twice over: a column without any
    non-empty value gets ['NVARCHAR(255)'], and -2147483648, which 32 bits
    hold, gets ['BIGINT']. *)
Lemma infer_int32_counterexample :
  let rs := rows (DictReader [["a"; "b"]; ["-2147483648"; ""]]) in
  (forall h v, h ∈ ["a"; "b"] -> v ∈ column_values h rs ->
     exists z, Py.int v = Some z /\ - 2 ^ 31 <= z <= 2 ^ 31 - 1)
  /\ infer_column_types ["a"; "b"] rs = [("a", "BIGINT"); ("b", "NVARCHAR(255)")].
Proof.
  intros rs. split; [|by vm_compute].
  assert (Ha : column_values "a" rs = ["-2147483648"]) by (vm_compute; reflexivity).
  assert (Hb : column_values "b" rs = []) by (vm_compute; reflexivity).
  intros h v Hh Hv.
  apply elem_of_cons in Hh as [->|Hh].
  - rewrite Ha in Hv. apply list_elem_of_singleton in Hv as ->.
    exists (-2147483648). split; [reflexivity|lia].
  - apply list_elem_of_singleton in Hh as ->. rewrite Hb in Hv. inversion Hv.
Qed.

(** C6.  A column with a non-empty value that is neither an integer nor a
    float gets ['DATE'], ['DATETIME2'] or one of the ['NVARCHAR'] types, and
    none of ['INT'], ['BIGINT'] and ['DECIMAL(18,6)']. *)
Theorem infer_non_numeric_column headers rows h r s :
  h ∈ headers -> r ∈ rows -> row_get r h = CStr s -> s <> "" ->
  Py.int s = None -> Py.float_of_str s = None ->
  exists t, dict_get (infer_column_types headers rows) h = Some t
            /\ t ∈ text_or_date_types /\ t ∉ numeric_types.
Proof.
  intros Hh Hr Hcell Hne Hint Hfloat.
  assert (Hs : s ∈ column_values h rows) by (apply elem_of_column_values; eauto).
  exists (infer_values (column_values h rows)).
  split; [by apply infer_column_types_get|].
  destruct (infer_values_cases (column_values h rows))
    as [[_ Hall]|[(_ & _ & Hall)|[Ht _]]].
  - rewrite Forall_forall in Hall. destruct (Hall s Hs) as [z Hz]. congruence.
  - rewrite Forall_forall in Hall. destruct (Hall s Hs) as [f Hf]. congruence.
  - split; [done|]. unfold text_or_date_types, numeric_types in *.
    repeat (apply elem_of_cons in Ht as [->|Ht];
            [intros Hn; repeat (apply elem_of_cons in Hn as [Hn|Hn]; [done|]);
             inversion Hn|]).
    inversion Ht.
Qed.

Lemma infer_non_numeric_column_witness :
  exists t, dict_get (infer_column_types ["n"] (rows notes_file)) "n" = Some t
            /\ t ∈ text_or_date_types /\ t ∉ numeric_types.
Proof.
  apply (infer_non_numeric_column ["n"] (rows notes_file) "n"
           {[ "n" := CStr "n/a" ]} "n/a").
  - by left.
  - right. left.
  - reflexivity.
  - discriminate.
  - reflexivity.
  - reflexivity.
Defined.

(** C9.  Under the types [infer_column_types] gives for the headers and rows
    of an import, [convert_value] returns for every cell of those rows;
    every non-empty value of an ['INT'] or ['BIGINT'] column parses as an
    integer, and every non-empty value of a ['DECIMAL(18,6)'] column as a
    float. *)
Theorem convert_value_never_raises headers rows :
  (forall r h, r ∈ rows -> h ∈ headers ->
     exists x, convert_value (row_get r h)
                 (col_type (infer_column_types headers rows) h) = Ret x)
  /\ (forall h v, h ∈ headers -> v ∈ column_values h rows ->
        col_type (infer_column_types headers rows) h ∈ ["INT"; "BIGINT"] ->
        is_Some (Py.int v))
  /\ (forall h v, h ∈ headers -> v ∈ column_values h rows ->
        col_type (infer_column_types headers rows) h = "DECIMAL(18,6)" ->
        is_Some (Py.float_of_str v)).
Proof.
  split_and!.
  - intros r h Hr Hh. by apply convert_cell_inferred.
  - intros h v Hh Hv. rewrite (col_type_inferred _ _ _ Hh). intros Ht.
    destruct (infer_values_cases (column_values h rows))
      as [[_ Hall]|[(Hd & _)|[Ht' _]]].
    + rewrite Forall_forall in Hall. auto.
    + rewrite Hd in Ht. exfalso.
      repeat (apply elem_of_cons in Ht as [Ht|Ht]; [done|]). inversion Ht.
    + exfalso. unfold text_or_date_types in Ht'.
      repeat (apply elem_of_cons in Ht' as [Ht'|Ht'];
              [rewrite Ht' in Ht;
               repeat (apply elem_of_cons in Ht as [Ht|Ht]; [done|]); inversion Ht|]).
      inversion Ht'.
  - intros h v Hh Hv. rewrite (col_type_inferred _ _ _ Hh). intros Ht.
    destruct (infer_values_cases (column_values h rows))
      as [[Ht' _]|[(_ & _ & Hall)|[Ht' _]]].
    + rewrite Ht in Ht'. exfalso.
      repeat (apply elem_of_cons in Ht' as [Ht'|Ht']; [done|]). inversion Ht'.
    + rewrite Forall_forall in Hall. auto.
    + rewrite Ht in Ht'. exfalso. unfold text_or_date_types in Ht'.
      repeat (apply elem_of_cons in Ht' as [Ht'|Ht']; [done|]). inversion Ht'.
Qed.

Lemma convert_value_never_raises_witness :
  exists x, convert_value (row_get {[ "n" := CStr "n/a" ]} "n")
              (col_type (infer_column_types ["n"] (rows notes_file)) "n") = Ret x.
Proof.
  apply (proj1 (convert_value_never_raises ["n"] (rows notes_file))).
  - right. left.
  - by left.
Defined.

(** ** Import *)

(** C2, as amended.  An import into a table that exists already, whether or
    not creation is requested, returns the number of rows of the file and
    appends one row per row of the file to the table (emptied first when
    truncation is requested); each cell is converted under the type inferred
    for its column from the rows of the file being imported. *)
Theorem import_converts_by_inferred_types
    file headers sn tn create_table truncate c data :
  fieldnames file = Some headers -> headers <> [] -> rows file <> [] ->
  tables c !! (sn, tn) = Some data ->
  exists vss c',
    import_csv file sn tn create_table truncate c
    = (Ret (Z.of_nat (length (rows file))), c')
    /\ tables c' !! (sn, tn) = Some ((if truncate then [] else data) ++ vss)
    /\ Forall2 (fun r vs =>
         Forall2 (fun h v =>
                    convert_value (row_get r h)
                      (infer_values (column_values h (rows file))) = Ret v)
                 headers vs)
         (rows file) vss.
Proof.
  intros Hfn Hh Hrows Hdata.
  destruct (import_csv_run file headers sn tn create_table truncate c data)
    as (vss & c' & Hrun & Hall & Ht); [done..|].
  exists vss, c'. split_and!; [done..|].
  eapply Forall2_impl; [exact Hall|]. intros r vs. apply convert_row_types.
Qed.

Lemma import_converts_by_inferred_types_witness :
  exists vss c',
    import_csv ids_file "s" "t" false false (conn_with_table "s" "t")
    = (Ret 2, c')
    /\ tables c' !! ("s", "t") = Some ([] ++ vss)
    /\ Forall2 (fun r vs =>
         Forall2 (fun h v =>
                    convert_value (row_get r h)
                      (infer_values (column_values h (rows ids_file))) = Ret v)
                 ["id"; "note"] vs)
         (rows ids_file) vss.
Proof.
  apply (import_converts_by_inferred_types ids_file ["id"; "note"] "s" "t"
           false false (conn_with_table "s" "t") []).
  - reflexivity.
  - discriminate.
  - discriminate.
  - reflexivity.
Defined.

(** C2 as the specification has it fails.  With creation skipped, the cell
    ["1"] goes into the table as the integer 1, where the text fallback
    would pass the string on; and a second file with the cell ["x"] loads
    as text into the table whose column the first file made ['INT'], where
    the type decided at creation would make the conversion raise. *)
Lemma import_fallback_counterexample :
  let first := DictReader [["n"]; ["1"]] in
  let second := DictReader [["n"]; ["x"]] in
  let c0 := {| schemas := {[ "s" ]}; tables := ∅; trace := [] |} in
  let c1 := (import_csv first "s" "t" true false c0).2 in
  let c2 := (import_csv first "s" "t" false false c1).2 in
  let c3 := (import_csv second "s" "t" false false c2).2 in
  trace c1 = [Execute (SelectTableCount "s" "t");
              Execute (CreateTable "s" "t" [("n", "INT")]); Commit;
              Execute (InsertInto "s" "t" ["n"] [VInt 1]); Commit]
  /\ tables c2 !! ("s", "t") = Some [[VInt 1]; [VInt 1]]
  /\ convert_value (CStr "1") "NVARCHAR" = Ret (VStr "1")
  /\ tables c3 !! ("s", "t") = Some [[VInt 1]; [VInt 1]; [VStr "x"]]
  /\ convert_value (CStr "x") "INT" = Raise Py.ValueError.
Proof. vm_compute. repeat split. Qed.

(** C8.  On a file with a header and no row, [import_csv] returns 0 and
    leaves the connection as it was: nothing is executed or committed. *)
Theorem import_csv_no_rows file headers sn tn create_table truncate c :
  fieldnames file = Some headers -> headers <> [] -> rows file = [] ->
  import_csv file sn tn create_table truncate c = (Ret 0, c).
Proof.
  intros Hfn Hh Hrows. unfold import_csv. rewrite Hfn, Hrows.
  by destruct headers.
Qed.

Lemma import_csv_no_rows_witness :
  import_csv (DictReader [["id"; "note"]]) "s" "t" true true empty_conn
  = (Ret 0, empty_conn).
Proof.
  apply (import_csv_no_rows (DictReader [["id"; "note"]]) ["id"; "note"]).
  - reflexivity.
  - discriminate.
  - reflexivity.
Defined.

(** C10.  A cell that is the empty string, a cell whose column the row lacks
    and a cell that is [None] are all converted to [None] (SQL NULL) under
    every type; and importing a file gives the same result and the same
    connection when an empty cell of a row is taken out of the row or made
    [None]. *)
Theorem blank_cells_insert_null r h :
  r !! h = Some (CStr "") ->
  (forall t, convert_value (row_get r h) t = Ret VNone
             /\ convert_value (row_get (delete h r) h) t = Ret VNone
             /\ convert_value (row_get (<[h := CNone]> r) h) t = Ret VNone)
  /\ (forall fn rows1 rows2 sn tn create_table truncate c,
        let import rs :=
          import_csv {| fieldnames := fn; rows := rs |} sn tn create_table truncate c in
        import (rows1 ++ r :: rows2) = import (rows1 ++ delete h r :: rows2)
        /\ import (rows1 ++ r :: rows2) = import (rows1 ++ <[h := CNone]> r :: rows2)).
Proof.
  intros Hcell.
  assert (Hblank : text_of (row_get r h) = None) by (unfold row_get; by rewrite Hcell).
  split.
  - intros t. unfold row_get. rewrite Hcell, lookup_delete_eq, lookup_insert_eq. done.
  - intros fn rows1 rows2 sn tn create_table truncate c import.
    split; apply import_csv_same_text; apply Forall2_app;
      try (apply Forall_Forall2_diag, Forall_forall; intros; apply same_text_refl);
      (constructor;
       [|apply Forall_Forall2_diag, Forall_forall; intros; apply same_text_refl]).
    + by apply same_text_delete.
    + by apply same_text_insert_None.
Qed.

Lemma blank_cells_insert_null_witness :
  import_csv {| fieldnames := Some ["a"; "b"];
                rows := [] ++ {[ "a" := CStr "1"; "b" := CStr "" ]} :: [] |}
             "s" "t" true false (conn_with_table "s" "x")
  = import_csv {| fieldnames := Some ["a"; "b"];
                  rows := [] ++ delete "b" {[ "a" := CStr "1"; "b" := CStr "" ]} :: [] |}
               "s" "t" true false (conn_with_table "s" "x").
Proof.
  refine (proj1 (proj2 (blank_cells_insert_null
                          {[ "a" := CStr "1"; "b" := CStr "" ]} "b" _)
                   (Some ["a"; "b"]) [] [] "s" "t" true false
                   (conn_with_table "s" "x"))).
  reflexivity.
Defined.

(** ** Schema drop *)

(** C7.  For a schema that is not in the catalog, [drop_schema] returns
    [True]; the one statement it executes is the existence query, so it lists
    no tables, drops no table and no schema, and commits nothing; the catalog
    is as before. *)
Theorem drop_schema_missing c sn cascade :
  sn ∉ schemas c ->
  exists c',
    drop_schema sn cascade c = (Ret true, c')
    /\ trace c' = trace c ++ [Execute (SelectSchemaCount sn)]
    /\ schemas c' = schemas c
    /\ tables c' = tables c.
Proof.
  intros Hmissing. exists (Db.log (Execute (SelectSchemaCount sn)) c).
  split; [|done]. unfold drop_schema, Db.bind.
  by rewrite schema_exists_run, bool_decide_false.
Qed.

Lemma drop_schema_missing_witness :
  exists c',
    drop_schema "gone" true (conn_with_table "s" "t") = (Ret true, c')
    /\ trace c' = [] ++ [Execute (SelectSchemaCount "gone")]
    /\ schemas c' = {[ "s" ]}
    /\ tables c' = {[ ("s", "t") := [] ]}.
Proof.
  apply (drop_schema_missing (conn_with_table "s" "t") "gone" true).
  simpl. intros Hin. apply elem_of_singleton in Hin. discriminate.
Defined.

(** ** Comparison *)

(** C3.  On two well-formed files, in either mode, [compare_csv_files]
    returns, and its flag is [True] exactly when its list of differences is
    empty. *)
Theorem compare_match_iff_no_differences file1 file2 ignore_order :
  well_formed file1 -> well_formed file2 ->
  exists m d,
    compare_csv_files file1 file2 ignore_order = Ret (m, d)
    /\ (m = true <-> d = []).
Proof.
  intros [headers1 H1] [headers2 H2].
  destruct (compare_csv_files_run file1 file2 ignore_order _ _ H1 H2)
    as (m & d & Hrun & Hm & _).
  eauto.
Qed.

Lemma compare_match_iff_no_differences_witness :
  exists m d,
    compare_csv_files left_file right_file true = Ret (m, d)
    /\ (m = true <-> d = []).
Proof.
  apply (compare_match_iff_no_differences left_file right_file true).
  - by eexists.
  - by eexists.
Defined.

(** C4.  On two well-formed files, in either mode, comparing them in the two
    orders gives the same flag. *)
Theorem compare_match_symmetric file1 file2 ignore_order :
  well_formed file1 -> well_formed file2 ->
  exists m d d',
    compare_csv_files file1 file2 ignore_order = Ret (m, d)
    /\ compare_csv_files file2 file1 ignore_order = Ret (m, d').
Proof.
  intros [headers1 H1] [headers2 H2].
  destruct (compare_csv_files_run file1 file2 ignore_order _ _ H1 H2)
    as (m & d & Hrun & Hm & Hd).
  destruct (compare_csv_files_run file2 file1 ignore_order _ _ H2 H1)
    as (m' & d' & Hrun' & Hm' & Hd').
  exists m, d, d'. split; [done|]. rewrite Hrun'. do 2 f_equal.
  apply eq_true_iff_eq. rewrite Hm, Hm', Hd, Hd'.
  split; apply match_conditions_flip.
Qed.

Lemma compare_match_symmetric_witness :
  exists m d d',
    compare_csv_files left_file right_file true = Ret (m, d)
    /\ compare_csv_files right_file left_file true = Ret (m, d').
Proof.
  apply (compare_match_symmetric left_file right_file true).
  - by eexists.
  - by eexists.
Defined.

(** C5.  In the order-insensitive mode, permuting the rows of either file,
    or of both, leaves the result of [compare_csv_files] on two well-formed
    files as it is: the same flag, and the same differences. *)
Theorem compare_permutation_invariant file1 file2 rows1' rows2' :
  well_formed file1 -> well_formed file2 ->
  rows1' ≡ₚ rows file1 -> rows2' ≡ₚ rows file2 ->
  exists m d,
    compare_csv_files file1 file2 true = Ret (m, d)
    /\ compare_csv_files {| fieldnames := fieldnames file1; rows := rows1' |}
                         {| fieldnames := fieldnames file2; rows := rows2' |} true
       = Ret (m, d).
Proof.
  intros [headers1 H1] [headers2 H2] Hp1 Hp2.
  unfold compare_csv_files. cbn [fieldnames rows]. rewrite H1, H2.
  eexists _, _. split; [reflexivity|].
  rewrite (Permutation_length Hp1), (Permutation_length Hp2).
  by rewrite (cell_diffs_keys headers1 _ _ _ _
                (row_keys_Permutation headers1 _ _ Hp1)
                (row_keys_Permutation headers1 _ _ Hp2)).
Qed.

Lemma compare_permutation_invariant_witness :
  exists m d,
    compare_csv_files left_file right_file true = Ret (m, d)
    /\ compare_csv_files
         {| fieldnames := fieldnames left_file; rows := reverse (rows left_file) |}
         {| fieldnames := fieldnames right_file; rows := rows right_file |} true
       = Ret (m, d).
Proof.
  apply (compare_permutation_invariant left_file right_file).
  - by eexists.
  - by eexists.
  - apply reverse_Permutation.
  - reflexivity.
Defined.

(** * Further properties of the code *)

(** Membership in a list that is written out. *)
Ltac in_concrete_list :=
  simpl; repeat first [apply list_elem_of_here | apply list_elem_of_further].

(** ** The inferred column types as a whole *)

Lemma dict_set_fresh k v d : k ∉ d.*1 -> dict_set k v d = d ++ [(k, v)].
Proof.
  induction d as [|[k0 v0] d IH]; csimpl; [done|]. intros Hk.
  apply not_elem_of_cons in Hk as [Hne Hk].
  rewrite (string_eqb_false k0 k) by done. by rewrite IH.
Qed.

Lemma dict_set_keys k v d :
  (dict_set k v d).*1 = if bool_decide (k ∈ d.*1) then d.*1 else d.*1 ++ [k].
Proof.
  induction d as [|[k0 v0] d IH]; csimpl; [done|].
  destruct (String.eqb_spec k0 k) as [->|Hne]; csimpl.
  - by rewrite bool_decide_true by left.
  - rewrite IH. destruct (decide (k ∈ d.*1)) as [Hin|Hnin].
    + by rewrite !bool_decide_true by (try right; done).
    + rewrite !bool_decide_false; [done|by intros [?|?]%elem_of_cons|done].
Qed.

Lemma dict_get_Some_key d k v : dict_get d k = Some v -> k ∈ d.*1.
Proof.
  induction d as [|[k0 v0] d IH]; csimpl; [done|].
  destruct (String.eqb_spec k0 k) as [->|Hne]; [by left|]. right. auto.
Qed.

Lemma infer_column_types_keys headers rows :
  NoDup (infer_column_types headers rows).*1
  /\ forall h, h ∈ (infer_column_types headers rows).*1 <-> h ∈ headers.
Proof.
  unfold infer_column_types.
  assert (Hgen : forall acc : list (string * string),
    NoDup acc.*1 ->
    let d := foldl (fun col_types header =>
               dict_set header (infer_values (column_values header rows)) col_types)
               acc headers in
    NoDup d.*1 /\ forall h, h ∈ d.*1 <-> h ∈ acc.*1 \/ h ∈ headers).
  { induction headers as [|x headers IH]; intros acc Hacc; simpl.
    - split; [done|]. intros h. split; [by left|]. intros [?|Hin]; [done|inversion Hin].
    - set (acc' := dict_set x (infer_values (column_values x rows)) acc).
      assert (Hkeys : acc'.*1 = if bool_decide (x ∈ acc.*1) then acc.*1 else acc.*1 ++ [x])
        by apply dict_set_keys.
      destruct (IH acc') as [Hnd Hmem].
      { rewrite Hkeys. case_bool_decide; [done|].
        apply NoDup_app. split_and!; [done| |apply NoDup_singleton].
        intros y Hy Hy'. apply list_elem_of_singleton in Hy'. by subst. }
      split; [done|]. intros h. rewrite Hmem, Hkeys, elem_of_cons.
      case_bool_decide as Hx.
      + split; [intros [?|?]; auto|]. intros [?|[->|?]]; auto.
      + rewrite elem_of_app, list_elem_of_singleton. tauto. }
  destruct (Hgen [] (NoDup_nil_2)) as [Hnd Hmem]. split; [done|].
  intros h. rewrite Hmem. split; [intros [Hin|?]; [inversion Hin|done]|by right].
Qed.

Lemma infer_column_types_NoDup headers rows :
  NoDup headers ->
  infer_column_types headers rows
  = (fun h => (h, infer_values (column_values h rows))) <$> headers.
Proof.
  unfold infer_column_types.
  assert (Hgen : forall acc : list (string * string),
    NoDup headers -> (forall h, h ∈ headers -> h ∉ acc.*1) ->
    foldl (fun col_types header =>
             dict_set header (infer_values (column_values header rows)) col_types)
          acc headers
    = acc ++ ((fun h => (h, infer_values (column_values h rows))) <$> headers)).
  { induction headers as [|x headers IH]; intros acc Hnd Hfresh; csimpl.
    - by rewrite app_nil_r.
    - apply NoDup_cons in Hnd as [Hx Hnd].
      rewrite dict_set_fresh by (apply Hfresh; by left).
      rewrite IH; [by rewrite <- app_assoc|done|].
      intros h Hh. rewrite fmap_app, elem_of_app. csimpl.
      intros [Hin|Hin%list_elem_of_singleton]; [|by subst].
      by apply (Hfresh h); [right|]. }
  intros Hnd. apply (Hgen [] Hnd). intros h _ Hin. inversion Hin.
Qed.

(** X1.  The inferred types have one entry for each distinct header and for
    nothing else; when no header is repeated the entries are in header order,
    each with the type inferred from its own column. *)
Theorem infer_column_types_entries headers rows :
  NoDup (infer_column_types headers rows).*1
  /\ (forall h, h ∈ (infer_column_types headers rows).*1 <-> h ∈ headers)
  /\ (NoDup headers ->
      infer_column_types headers rows
      = (fun h => (h, infer_values (column_values h rows))) <$> headers).
Proof.
  destruct (infer_column_types_keys headers rows) as [Hnd Hmem].
  split_and!; [done|done|apply infer_column_types_NoDup].
Qed.

Lemma infer_column_types_entries_witness :
  infer_column_types ["id"; "note"] (rows ids_file)
  = (fun h => (h, infer_values (column_values h (rows ids_file)))) <$> ["id"; "note"].
Proof.
  apply (proj2 (proj2 (infer_column_types_entries ["id"; "note"] (rows ids_file)))).
  apply NoDup_cons. split; [|apply NoDup_singleton].
  intros Hin. apply list_elem_of_singleton in Hin. discriminate.
Defined.

Lemma infer_values_closed values :
  infer_values values ∈ numeric_types ++ text_or_date_types.
Proof.
  unfold numeric_types, text_or_date_types.
  destruct (infer_values_cases values) as [[Ht _]|[(Ht & _)|[Ht _]]].
  - repeat (apply elem_of_cons in Ht as [->|Ht]; [in_concrete_list|]). inversion Ht.
  - rewrite Ht. in_concrete_list.
  - unfold text_or_date_types in Ht.
    repeat (apply elem_of_cons in Ht as [->|Ht]; [in_concrete_list|]). inversion Ht.
Qed.

(** X2.  Every type in the inferred types is one of ['INT'], ['BIGINT'],
    ['DECIMAL(18,6)'], ['DATE'], ['DATETIME2'], ['NVARCHAR(50)'],
    ['NVARCHAR(255)'] and ['NVARCHAR(MAX)'], and it belongs to a header. *)
Theorem infer_column_types_closed headers rows h t :
  dict_get (infer_column_types headers rows) h = Some t ->
  h ∈ headers /\ t ∈ numeric_types ++ text_or_date_types.
Proof.
  intros Hget. assert (Hh : h ∈ headers).
  { apply (proj2 (infer_column_types_keys headers rows)).
    by apply dict_get_Some_key in Hget. }
  split; [done|]. rewrite (infer_column_types_get _ _ _ Hh) in Hget.
  injection Hget as <-. apply infer_values_closed.
Qed.

Lemma infer_column_types_closed_witness :
  "note" ∈ ["id"; "note"]
  /\ "NVARCHAR(50)" ∈ numeric_types ++ text_or_date_types.
Proof.
  apply (infer_column_types_closed ["id"; "note"] (rows ids_file) "note" "NVARCHAR(50)").
  vm_compute. reflexivity.
Defined.

Lemma column_values_blank h rows :
  (forall r, r ∈ rows -> text_of (row_get r h) = None) -> column_values h rows = [].
Proof.
  intros Hblank. induction rows as [|r rows IH]; [done|].
  unfold column_values in *. csimpl.
  change (match row_get r h with
          | CNone => None
          | CStr s => if String.eqb s "" then None else Some s
          end) with (text_of (row_get r h)).
  rewrite (Hblank r) by left. csimpl. apply IH. intros r' Hr'. apply Hblank. by right.
Qed.

(** X3.  A header under which every row has an empty cell, a [None] cell or
    no cell at all gets ['NVARCHAR(255)']; so does every header when there
    are no rows. *)
Theorem infer_blank_column headers rows h :
  h ∈ headers ->
  (forall r, r ∈ rows -> text_of (row_get r h) = None) ->
  dict_get (infer_column_types headers rows) h = Some "NVARCHAR(255)".
Proof.
  intros Hh Hblank. rewrite (infer_column_types_get _ _ _ Hh).
  by rewrite (column_values_blank _ _ Hblank).
Qed.

Lemma infer_blank_column_witness :
  dict_get (infer_column_types ["a"; "b"]
              (rows (DictReader [["a"; "b"]; ["1"; ""]; ["2"]]))) "b"
  = Some "NVARCHAR(255)".
Proof.
  apply infer_blank_column.
  - right. left.
  - intros r Hr. apply elem_of_cons in Hr as [->|Hr]; [reflexivity|].
    apply list_elem_of_singleton in Hr as ->. reflexivity.
Defined.

(** ** Inference and the order of the rows *)

Lemma mapM_omap {A B} (f : A -> option B) l k : mapM f l = Some k -> k = omap f l.
Proof.
  intros HF%mapM_Some. induction HF as [|x y l k Hxy _ IH]; csimpl; [done|].
  by rewrite Hxy, IH.
Qed.

Lemma mapM_Permutation {A B} (f : A -> option B) l l' k :
  l ≡ₚ l' -> mapM f l = Some k -> exists k', mapM f l' = Some k' /\ k ≡ₚ k'.
Proof.
  intros Hp Hk.
  destruct (mapM_is_Some_2 f l') as [k' Hk'].
  { rewrite <- Hp. apply mapM_is_Some_1. by rewrite Hk. }
  exists k'. split; [done|].
  by rewrite (mapM_omap f l k Hk), (mapM_omap f l' k' Hk'), Hp.
Qed.

Lemma mapM_None_Permutation {A B} (f : A -> option B) l l' :
  l ≡ₚ l' -> mapM f l = None -> mapM f l' = None.
Proof. intros Hp. rewrite !mapM_None. by rewrite Hp. Qed.

Lemma max_of_leb_Permutation l l' B :
  l ≡ₚ l' -> (max_of l <=? B) = (max_of l' <=? B).
Proof.
  intros Hp. destruct l as [|x l].
  { apply Permutation_nil in Hp. by subst. }
  assert (l' <> []) by (intros ->; by apply Permutation_nil_r in Hp).
  apply eq_true_iff_eq. rewrite !Z.leb_le, !max_of_le by done. by rewrite Hp.
Qed.

Lemma forallb_Permutation {A} (f : A -> bool) l l' :
  l ≡ₚ l' -> forallb f l = forallb f l'.
Proof.
  induction 1 as [|x l l' _ IH|x y l|l l' l'' _ IH1 _ IH2]; simpl.
  - done.
  - by rewrite IH.
  - by rewrite !andb_assoc, (andb_comm (f y)).
  - by rewrite IH1.
Qed.

Lemma infer_values_Permutation l l' : l ≡ₚ l' -> infer_values l = infer_values l'.
Proof.
  intros Hp. unfold infer_values.
  destruct l as [|x l0] eqn:Hl.
  { apply Permutation_nil in Hp. by subst. }
  destruct l' as [|x' l0'] eqn:Hl'.
  { by apply Permutation_nil_r in Hp. }
  rewrite <- Hl, <- Hl' in *. clear Hl Hl' x l0 x' l0'.
  destruct (mapM Py.int l) as [ints|] eqn:Hint.
  { destruct (mapM_Permutation Py.int l l' ints Hp Hint) as (ints' & -> & Hpi).
    by rewrite (max_of_leb_Permutation (Z.abs <$> ints) (Z.abs <$> ints'))
      by (by rewrite Hpi). }
  rewrite (mapM_None_Permutation Py.int l l' Hp Hint).
  destruct (mapM Py.float_of_str l) as [fs|] eqn:Hfl.
  { by destruct (mapM_Permutation Py.float_of_str l l' fs Hp Hfl) as (fs' & -> & _). }
  rewrite (mapM_None_Permutation Py.float_of_str l l' Hp Hfl).
  rewrite (forallb_Permutation match_date l l' Hp),
    (forallb_Permutation match_datetime l l' Hp).
  set (len := fun v : string => Z.of_nat (String.length v)).
  by rewrite !(max_of_leb_Permutation (len <$> l) (len <$> l')) by (by rewrite Hp).
Qed.

(** X4.  The inferred types do not depend on the order of the rows. *)
Theorem infer_column_types_row_order headers rows rows' :
  rows ≡ₚ rows' ->
  infer_column_types headers rows = infer_column_types headers rows'.
Proof.
  intros Hp. unfold infer_column_types. generalize (@nil (string * string)).
  induction headers as [|h headers IH]; intros acc; simpl; [done|].
  rewrite IH.
  rewrite (infer_values_Permutation (column_values h rows) (column_values h rows'));
    [done|].
  unfold column_values. by rewrite Hp.
Qed.

Lemma infer_column_types_row_order_witness :
  infer_column_types ["id"; "note"] (rows ids_file)
  = infer_column_types ["id"; "note"] (reverse (rows ids_file)).
Proof.
  apply infer_column_types_row_order. symmetry. apply reverse_Permutation.
Defined.

(** ** The other types *)

(** X5.  A column whose non-empty values all parse as floats, one of them
    not as an integer, gets ['DECIMAL(18,6)']. *)
Theorem infer_decimal_column headers rows h :
  h ∈ headers ->
  (forall v, v ∈ column_values h rows -> is_Some (Py.float_of_str v)) ->
  (exists v, v ∈ column_values h rows /\ Py.int v = None) ->
  dict_get (infer_column_types headers rows) h = Some "DECIMAL(18,6)".
Proof.
  intros Hh Hfloat (v & Hv & Hint). rewrite (infer_column_types_get _ _ _ Hh).
  f_equal. unfold infer_values.
  destruct (column_values h rows) as [|v0 vs] eqn:Hvals; [inversion Hv|].
  rewrite <- Hvals in *.
  rewrite (mapM_None_2 Py.int) by (apply Exists_exists; eauto).
  destruct (mapM_is_Some_2 Py.float_of_str (column_values h rows)) as [fs ->];
    [by apply Forall_forall|done].
Qed.

Lemma infer_decimal_column_witness :
  dict_get (infer_column_types ["id"; "amount"] (rows amounts_file)) "amount"
  = Some "DECIMAL(18,6)".
Proof.
  assert (Hvals : column_values "amount" (rows amounts_file) = ["10.50"; "20"])
    by (vm_compute; reflexivity).
  apply infer_decimal_column.
  - right. left.
  - rewrite Hvals. intros v Hv.
    apply elem_of_cons in Hv as [->|Hv]; [by eexists|].
    apply list_elem_of_singleton in Hv as ->. by eexists.
  - exists "10.50". rewrite Hvals. split; [left|reflexivity].
Defined.

Lemma infer_values_nvarchar_fits values v :
  v ∈ values ->
  (infer_values values = "NVARCHAR(50)" -> (String.length v <= 50)%nat)
  /\ (infer_values values = "NVARCHAR(255)" -> (String.length v <= 255)%nat).
Proof.
  intros Hv. unfold infer_values.
  destruct values as [|v0 vs] eqn:Hvals; [inversion Hv|]. rewrite <- Hvals in *.
  assert (Hne : (fun v => Z.of_nat (String.length v)) <$> values <> [])
    by (by rewrite Hvals).
  assert (Hfit : forall B,
    max_of ((fun v => Z.of_nat (String.length v)) <$> values) <= B ->
    Z.of_nat (String.length v) <= B).
  { intros B HB. apply max_of_le in HB; [|done]. rewrite Forall_forall in HB.
    apply HB. by apply (list_elem_of_fmap_2 (fun v => Z.of_nat (String.length v))). }
  destruct (mapM Py.int values); [by destruct (_ <=? _)|].
  destruct (mapM Py.float_of_str values); [done|].
  destruct (forallb match_date values); [done|].
  destruct (forallb match_datetime values); [done|].
  destruct (Z.leb_spec (max_of ((fun v => Z.of_nat (String.length v)) <$> values)) 50)
    as [H50|H50].
  { split; [|done]. intros _. specialize (Hfit 50 H50). lia. }
  destruct (Z.leb_spec (max_of ((fun v => Z.of_nat (String.length v)) <$> values)) 255)
    as [H255|H255]; [|done].
  split; [done|]. intros _. specialize (Hfit 255 H255). lia.
Qed.

(** X6.  Every non-empty value of a column typed ['NVARCHAR(50)'] has at most
    50 characters, and every non-empty value of a column typed
    ['NVARCHAR(255)'] at most 255. *)
Theorem infer_nvarchar_fits headers rows h v :
  h ∈ headers -> v ∈ column_values h rows ->
  (dict_get (infer_column_types headers rows) h = Some "NVARCHAR(50)" ->
   (String.length v <= 50)%nat)
  /\ (dict_get (infer_column_types headers rows) h = Some "NVARCHAR(255)" ->
      (String.length v <= 255)%nat).
Proof.
  intros Hh Hv. rewrite (infer_column_types_get _ _ _ Hh).
  destruct (infer_values_nvarchar_fits _ _ Hv) as [H50 H255].
  split; intros [= Ht]; auto.
Qed.

Lemma infer_nvarchar_fits_witness : (String.length "n/a" <= 50)%nat.
Proof.
  apply (proj1 (infer_nvarchar_fits ["n"] (rows notes_file) "n" "n/a"
                  ltac:(left) ltac:(vm_compute; right; left))).
  vm_compute. reflexivity.
Defined.

(** ** Dates *)

Lemma digit_facts c :
  Py.isdigit c = true ->
  Py.isspace c = false /\ Ascii.eqb c "-" = false /\ Ascii.eqb c "+" = false
  /\ Ascii.eqb (Py.lower c) "i" = false /\ Ascii.eqb (Py.lower c) "n" = false.
Proof.
  destruct c as [[] [] [] [] [] [] [] []]; vm_compute; intros Hd;
    first [discriminate Hd | repeat split].
Qed.

Lemma rstrip_cons c s :
  Py.isspace c = false -> Py.rstrip (String c s) = String c (Py.rstrip s).
Proof. intros Hc. simpl. rewrite Hc. by destruct (Py.rstrip s). Qed.

Lemma digitpart_tail_digit acc n c s :
  Py.isdigit c = true ->
  Py.digitpart_tail acc n (String c s)
  = Py.digitpart_tail (10 * acc + Py.digit_value c) (S n) s.
Proof. intros Hc. simpl. by rewrite Hc. Qed.

(** Text that starts with four digits and a dash is no number. *)
Lemma year_dash_not_a_number d1 d2 d3 d4 X :
  Py.isdigit d1 = true -> Py.isdigit d2 = true ->
  Py.isdigit d3 = true -> Py.isdigit d4 = true ->
  let s := String d1 (String d2 (String d3 (String d4 (String "-" X)))) in
  Py.int s = None /\ Py.float_of_str s = None.
Proof.
  intros H1 H2 H3 H4 s.
  destruct (digit_facts d1 H1) as (Hs1 & Hm1 & Hp1 & Hi1 & Hn1).
  destruct (digit_facts d2 H2) as (Hs2 & _).
  destruct (digit_facts d3 H3) as (Hs3 & _).
  destruct (digit_facts d4 H4) as (Hs4 & _).
  assert (Hstrip : Py.strip s
                   = String d1 (String d2 (String d3 (String d4
                       (String "-" (Py.rstrip X)))))).
  { unfold Py.strip, s. cbn [Py.lstrip]. rewrite Hs1.
    by rewrite !rstrip_cons by done. }
  assert (Hsign : Py.sign (Py.strip s) = (false, Py.strip s)).
  { rewrite Hstrip. unfold Py.sign. by rewrite Hm1, Hp1. }
  assert (Hdigits : Py.digitpart_from 0 (Py.strip s)
                    = Some (10 * (10 * (10 * (10 * 0 + Py.digit_value d1)
                                          + Py.digit_value d2)
                                    + Py.digit_value d3)
                              + Py.digit_value d4, 4%nat,
                            String "-" (Py.rstrip X))).
  { rewrite Hstrip. unfold Py.digitpart_from. rewrite H1.
    by rewrite !digitpart_tail_digit by done. }
  split.
  - unfold Py.int. by rewrite Hsign, Hdigits.
  - unfold Py.float_of_str. rewrite Hsign.
    assert (Hl : forall lit, String.eqb (Py.lowercase (Py.strip s)) (String "i" lit) = false
                             /\ String.eqb (Py.lowercase (Py.strip s)) (String "n" lit) = false).
    { intros lit. rewrite Hstrip. cbn [Py.lowercase String.eqb]. by rewrite Hi1, Hn1. }
    rewrite (proj1 (Hl "nf")), (proj1 (Hl "nfinity")), (proj2 (Hl "an")).
    cbn [orb]. unfold Py.number. by rewrite Hdigits.
Qed.

Lemma year_dash_shape p v rest :
  Re.match_prefix (Re.Digit :: Re.Digit :: Re.Digit :: Re.Digit :: Re.Char "-" :: p) v
  = Some rest ->
  exists d1 d2 d3 d4 X,
    v = String d1 (String d2 (String d3 (String d4 (String "-" X))))
    /\ Py.isdigit d1 = true /\ Py.isdigit d2 = true
    /\ Py.isdigit d3 = true /\ Py.isdigit d4 = true.
Proof.
  destruct v as [|d1 [|d2 [|d3 [|d4 [|c X]]]]]; cbn [Re.match_prefix Re.item_matches];
    repeat (match goal with
            | |- context [if Py.isdigit ?d then _ else _] =>
                destruct (Py.isdigit d) eqn:?; [|done]
            end); try done.
  destruct (Ascii.eqb_spec c "-") as [->|]; [|done].
  intros _. by exists d1, d2, d3, d4, X.
Qed.

Lemma match_date_not_a_number v :
  match_date v = true -> Py.int v = None /\ Py.float_of_str v = None.
Proof.
  unfold match_date, date_pattern.
  destruct (Re.match_prefix _ v) as [rest|] eqn:Hm; [|done]. intros _.
  apply year_dash_shape in Hm as (d1 & d2 & d3 & d4 & X & -> & H1 & H2 & H3 & H4).
  by apply year_dash_not_a_number.
Qed.

Lemma match_datetime_not_a_number v :
  match_datetime v = true -> Py.int v = None /\ Py.float_of_str v = None.
Proof.
  unfold match_datetime, datetime_pattern, date_pattern. cbn [app].
  destruct (Re.match_prefix _ v) as [rest|] eqn:Hm; [|done]. intros _.
  apply year_dash_shape in Hm as (d1 & d2 & d3 & d4 & X & -> & H1 & H2 & H3 & H4).
  by apply year_dash_not_a_number.
Qed.

Lemma match_prefix_app p q s :
  Re.match_prefix (p ++ q) s
  = match Re.match_prefix p s with
    | Some rest => Re.match_prefix q rest
    | None => None
    end.
Proof.
  revert s. induction p as [|i p IH]; intros s; [done|].
  destruct s as [|c s]; cbn [app Re.match_prefix]; [done|].
  destruct (Re.item_matches i c); [apply IH|done].
Qed.

(** A text is not both a date and a datetime. *)
Lemma match_datetime_not_date v : match_datetime v = true -> match_date v = false.
Proof.
  unfold match_datetime, match_date, datetime_pattern. rewrite match_prefix_app.
  destruct (Re.match_prefix date_pattern v) as [rest|]; [|done].
  destruct rest as [|c rest]; [done|]. cbn [Re.match_prefix Re.item_matches existsb].
  destruct (Ascii.eqb_spec c "T") as [->|]; [done|].
  destruct (Ascii.eqb_spec c " ") as [->|]; done.
Qed.

Lemma not_numbers_mapM values :
  values <> [] ->
  (forall v, v ∈ values -> Py.int v = None /\ Py.float_of_str v = None) ->
  mapM Py.int values = None /\ mapM Py.float_of_str values = None.
Proof.
  intros Hne Hall. destruct values as [|v vs]; [done|].
  destruct (Hall v) as [Hi Hf]; [left|].
  split; apply mapM_None_2; by left.
Qed.

(** X7.  A column with a non-empty value, whose non-empty values all have the
    form YYYY-MM-DD, gets ['DATE']: such text is never taken for a number. *)
Theorem infer_date_column headers rows h :
  h ∈ headers -> column_values h rows <> [] ->
  (forall v, v ∈ column_values h rows -> match_date v = true) ->
  dict_get (infer_column_types headers rows) h = Some "DATE".
Proof.
  intros Hh Hne Hdates. rewrite (infer_column_types_get _ _ _ Hh). f_equal.
  destruct (not_numbers_mapM (column_values h rows) Hne) as [Hi Hf].
  { intros v Hv. by apply match_date_not_a_number, Hdates. }
  unfold infer_values. destruct (column_values h rows) as [|v0 vs] eqn:Hvals; [done|].
  rewrite <- Hvals in *. rewrite Hi, Hf.
  assert (forallb match_date (column_values h rows) = true) as ->; [|done].
  apply forallb_forall. intros v Hv. by apply Hdates, list_elem_of_In.
Qed.

Lemma infer_date_column_witness :
  dict_get (infer_column_types ["created"]
              (rows (DictReader [["created"]; ["2024-01-01"]; ["2024-01-02"]])))
           "created"
  = Some "DATE".
Proof.
  assert (Hvals : column_values "created"
                    (rows (DictReader [["created"]; ["2024-01-01"]; ["2024-01-02"]]))
                  = ["2024-01-01"; "2024-01-02"]) by (vm_compute; reflexivity).
  apply infer_date_column.
  - left.
  - by rewrite Hvals.
  - rewrite Hvals. intros v Hv.
    apply elem_of_cons in Hv as [->|Hv]; [reflexivity|].
    apply list_elem_of_singleton in Hv as ->. reflexivity.
Defined.

(** X8.  A column with a non-empty value, whose non-empty values all start
    with YYYY-MM-DD, a ['T'] or a space, and HH:MM:SS, gets ['DATETIME2']. *)
Theorem infer_datetime_column headers rows h :
  h ∈ headers -> column_values h rows <> [] ->
  (forall v, v ∈ column_values h rows -> match_datetime v = true) ->
  dict_get (infer_column_types headers rows) h = Some "DATETIME2".
Proof.
  intros Hh Hne Hdt. rewrite (infer_column_types_get _ _ _ Hh). f_equal.
  destruct (not_numbers_mapM (column_values h rows) Hne) as [Hi Hf].
  { intros v Hv. by apply match_datetime_not_a_number, Hdt. }
  unfold infer_values. destruct (column_values h rows) as [|v0 vs] eqn:Hvals; [done|].
  rewrite <- Hvals in *. rewrite Hi, Hf.
  assert (forallb match_date (column_values h rows) = false) as ->.
  { rewrite Hvals. cbn [forallb].
    rewrite (match_datetime_not_date v0); [done|]. apply Hdt. rewrite Hvals. left. }
  assert (forallb match_datetime (column_values h rows) = true) as ->; [|done].
  apply forallb_forall. intros v Hv. by apply Hdt, list_elem_of_In.
Qed.

Lemma infer_datetime_column_witness :
  dict_get (infer_column_types ["at"]
              (rows (DictReader [["at"]; ["2024-01-01T10:00:00"];
                                 ["2024-01-02 11:30:00.5"]])))
           "at"
  = Some "DATETIME2".
Proof.
  assert (Hvals : column_values "at"
                    (rows (DictReader [["at"]; ["2024-01-01T10:00:00"];
                                       ["2024-01-02 11:30:00.5"]]))
                  = ["2024-01-01T10:00:00"; "2024-01-02 11:30:00.5"])
    by (vm_compute; reflexivity).
  apply infer_datetime_column.
  - left.
  - by rewrite Hvals.
  - rewrite Hvals. intros v Hv.
    apply elem_of_cons in Hv as [->|Hv]; [reflexivity|].
    apply list_elem_of_singleton in Hv as ->. reflexivity.
Defined.

(** X9.  A column that has both a YYYY-MM-DD value and a datetime value is
    neither ['DATE'] nor ['DATETIME2']: it gets one of the ['NVARCHAR']
    types. *)
Theorem infer_mixed_date_column headers rows h v w :
  h ∈ headers ->
  v ∈ column_values h rows -> match_date v = true ->
  w ∈ column_values h rows -> match_datetime w = true ->
  exists t, dict_get (infer_column_types headers rows) h = Some t
            /\ t ∈ ["NVARCHAR(50)"; "NVARCHAR(255)"; "NVARCHAR(MAX)"].
Proof.
  intros Hh Hv Hdate Hw Hdt. rewrite (infer_column_types_get _ _ _ Hh).
  eexists. split; [reflexivity|]. unfold infer_values.
  destruct (column_values h rows) as [|v0 vs] eqn:Hvals; [inversion Hv|].
  rewrite <- Hvals in *.
  rewrite (mapM_None_2 Py.int)
    by (apply Exists_exists; exists v; split;
        [done|by apply match_date_not_a_number]).
  rewrite (mapM_None_2 Py.float_of_str)
    by (apply Exists_exists; exists v; split;
        [done|by apply match_date_not_a_number]).
  assert (forallb match_date (column_values h rows) = false) as ->.
  { apply not_true_iff_false. intros Hall. rewrite forallb_forall in Hall.
    specialize (Hall w). rewrite <- list_elem_of_In in Hall.
    specialize (Hall Hw). rewrite (match_datetime_not_date w Hdt) in Hall. done. }
  assert (forallb match_datetime (column_values h rows) = false) as ->.
  { apply not_true_iff_false. intros Hall. rewrite forallb_forall in Hall.
    specialize (Hall v). rewrite <- list_elem_of_In in Hall. specialize (Hall Hv).
    apply match_datetime_not_date in Hall. congruence. }
  repeat (match goal with |- context [if ?b then _ else _] => destruct b end);
    in_concrete_list.
Qed.

Lemma infer_mixed_date_column_witness :
  exists t, dict_get (infer_column_types ["at"]
                        (rows (DictReader [["at"]; ["2024-01-01"];
                                           ["2024-01-02 11:30:00"]]))) "at" = Some t
            /\ t ∈ ["NVARCHAR(50)"; "NVARCHAR(255)"; "NVARCHAR(MAX)"].
Proof.
  apply (infer_mixed_date_column ["at"] _ "at" "2024-01-01" "2024-01-02 11:30:00").
  - left.
  - vm_compute. left.
  - reflexivity.
  - vm_compute. right. left.
  - reflexivity.
Defined.

(** ** Errors of the import *)

Lemma bind_no_python_error {A B} (m : Db.M A) (k : A -> Db.M B) c :
  no_python_error (m c) -> (forall a c', no_python_error (k a c')) ->
  no_python_error (Db.bind m k c).
Proof.
  intros Hm Hk. unfold Db.bind. destruct (m c) as [[a|e] c'] eqn:Hmc.
  - apply Hk.
  - intros e' [= <-]. by apply Hm.
Qed.

Lemma execute_no_python_error s c : no_python_error (Db.execute s c).
Proof.
  unfold Db.execute, Db.backend.
  destruct s; simpl;
    repeat (match goal with |- context [if ?b then _ else _] => destruct b end);
    by intros e [= <-].
Qed.

Lemma table_exists_no_python_error sn tn c : no_python_error (table_exists sn tn c).
Proof. rewrite table_exists_run. by intros e. Qed.

Lemma insert_rows_no_python_error sn tn col_types headers rs :
  Forall (fun r => exists vs, convert_row col_types headers r = Ret vs) rs ->
  forall acc c, no_python_error (insert_rows sn tn col_types headers rs acc c).
Proof.
  induction 1 as [|r rs [vs Hvs] _ IH]; intros acc c; simpl.
  - by intros e.
  - apply bind_no_python_error; [unfold lift; rewrite Hvs; by intros e|].
    intros vs' c1. apply bind_no_python_error; [apply execute_no_python_error|].
    intros _ c2. apply IH.
Qed.

(** X10.  [import_csv] raises [ValueError] exactly when the file has no
    header, that is no record at all or an empty first record; it then
    leaves the connection as it was.  With a header, whatever the rows and
    the connection, the only error it can end in is the driver's. *)
Theorem import_csv_ValueError file sn tn create_table truncate c :
  ((fieldnames file = None \/ fieldnames file = Some []) ->
   import_csv file sn tn create_table truncate c = (Raise Py.ValueError, c))
  /\ (forall e c', import_csv file sn tn create_table truncate c = (Raise e, c') ->
        e <> Py.DatabaseError ->
        e = Py.ValueError /\ (fieldnames file = None \/ fieldnames file = Some [])).
Proof.
  split.
  - intros [Hfn|Hfn]; unfold import_csv; by rewrite Hfn.
  - intros e c' Hrun Hne. unfold import_csv in Hrun.
    destruct (fieldnames file) as [[|h hs]|] eqn:Hfn.
    + injection Hrun as <- _. auto.
    + exfalso. apply Hne.
      assert (Hnp : no_python_error (import_csv file sn tn create_table truncate c)).
      { unfold import_csv. rewrite Hfn.
        destruct (rows file) as [|r0 rs] eqn:Hrows; [by intros e'|].
        apply bind_no_python_error.
        { destruct create_table; [|by intros e'].
          apply bind_no_python_error; [apply table_exists_no_python_error|].
          intros present c1. destruct present; simpl; [by intros e'|].
          apply bind_no_python_error; [apply execute_no_python_error|].
          intros _ c2. by intros e'. }
        intros _ c1. apply bind_no_python_error.
        { destruct truncate; [|by intros e'].
          apply bind_no_python_error; [apply table_exists_no_python_error|].
          intros present c2. destruct present; [|by intros e'].
          apply bind_no_python_error; [apply execute_no_python_error|].
          intros _ c3. by intros e'. }
        intros _ c2. apply bind_no_python_error.
        { apply insert_rows_no_python_error. apply Forall_forall.
          intros r Hr. by apply convert_row_inferred. }
        intros n c3. apply bind_no_python_error; by intros e'. }
      apply Hnp. unfold import_csv. rewrite Hfn. by rewrite Hrun.
    + injection Hrun as <- _. auto.
Qed.

Lemma import_csv_ValueError_witness :
  import_csv (DictReader []) "s" "t" true false empty_conn
  = (Raise Py.ValueError, empty_conn).
Proof.
  apply (proj1 (import_csv_ValueError (DictReader []) "s" "t" true false empty_conn)).
  by left.
Defined.

(** ** The statements of an import *)

(** X11.  When the table exists, or creation is requested and the schema
    exists, an import of a file with a header and rows returns the number of
    rows, and what it sends is, in this order: the existence query and, for an
    absent table, the creation and a commit (when creation is requested); the
    existence query and the truncation (when truncation is requested); one
    insert per row in file order; one commit.  The table then holds the
    converted rows after what it held before, or alone after a truncation,
    and no other table is changed. *)
Theorem import_csv_statements file headers sn tn create_table truncate c :
  fieldnames file = Some headers -> headers <> [] -> rows file <> [] ->
  is_Some (tables c !! (sn, tn)) \/ (create_table = true /\ sn ∈ schemas c) ->
  let col_types := infer_column_types headers (rows file) in
  let present := bool_decide (is_Some (tables c !! (sn, tn))) in
  exists vss c',
    import_csv file sn tn create_table truncate c
    = (Ret (Z.of_nat (length (rows file))), c')
    /\ Forall2 (fun r vs => convert_row col_types headers r = Ret vs) (rows file) vss
    /\ trace c'
       = trace c ++ creation_events sn tn col_types create_table present
           ++ truncation_events sn tn truncate
           ++ ((fun vs => Execute (InsertInto sn tn headers vs)) <$> vss)
           ++ [Commit]
    /\ schemas c' = schemas c
    /\ tables c' !! (sn, tn)
       = Some ((if truncate then [] else default [] (tables c !! (sn, tn))) ++ vss)
    /\ (forall k, k <> (sn, tn) -> tables c' !! k = tables c !! k).
Proof.
  intros Hfn Hh Hrows Hok col_types present. unfold import_csv. rewrite Hfn.
  destruct headers as [|h0 hs]; [done|]. set (headers := h0 :: hs) in *.
  destruct (rows file) as [|r0 rs] eqn:Hrs; [done|]. set (rows := r0 :: rs) in *.
  fold col_types.
  assert (Hconv : Forall (fun r => exists vs, convert_row col_types headers r = Ret vs) rows).
  { apply Forall_forall. intros r Hr. by apply convert_row_inferred. }
  set (data := default [] (tables c !! (sn, tn))).
  (* table creation *)
  set (c1 := {| schemas := schemas c;
                tables := if create_table && negb present
                          then <[(sn, tn) := []]> (tables c) else tables c;
                trace := trace c
                  ++ creation_events sn tn col_types create_table present |}).
  assert (Hstep1 :
    (if create_table
     then Db.bind (table_exists sn tn) (fun present =>
            if negb present
            then Db.bind (Db.execute (CreateTable sn tn col_types)) (fun _ => Db.commit)
            else Db.ret ())
     else Db.ret ()) c = (Ret (), c1)).
  { unfold c1, creation_events. destruct create_table; simpl.
    - unfold Db.bind at 1. rewrite table_exists_run. fold present.
      destruct present eqn:Hp; simpl.
      + done.
      + destruct Hok as [Hsome|[_ Hschema]].
        { apply bool_decide_eq_false in Hp. done. }
        unfold Db.bind, Db.execute, Db.backend, Db.commit, Db.log. simpl.
        rewrite (bool_decide_true _ Hschema). fold present. rewrite Hp. simpl.
        by rewrite <- !app_assoc.
    - unfold Db.ret. destruct c. simpl. by rewrite !app_nil_r. }
  assert (Hdata1 : tables c1 !! (sn, tn) = Some data).
  { unfold c1, data. simpl. destruct (create_table && negb present) eqn:Hcr.
    - rewrite lookup_insert_eq. apply andb_true_iff in Hcr as [_ Hp].
      apply negb_true_iff, bool_decide_eq_false in Hp.
      apply eq_None_not_Some in Hp. by rewrite Hp.
    - destruct (tables c !! (sn, tn)) as [d|] eqn:Hd; [done|].
      destruct Hok as [[? [=]]|[-> _]].
      unfold present in Hcr.
      rewrite bool_decide_false in Hcr by (by intros [? [=]]). done. }
  assert (Hframe1 : forall k, k <> (sn, tn) -> tables c1 !! k = tables c !! k).
  { intros k Hk. unfold c1. simpl.
    destruct (create_table && negb present); [by rewrite lookup_insert_ne|done]. }
  assert (Hs1 : schemas c1 = schemas c) by done.
  assert (Htr1 : trace c1
                 = trace c ++ creation_events sn tn col_types create_table present)
    by done.
  clearbody c1.
  (* truncation *)
  set (c2 := {| schemas := schemas c1;
                tables := if truncate then <[(sn, tn) := []]> (tables c1) else tables c1;
                trace := trace c1 ++ truncation_events sn tn truncate |}).
  assert (Hstep2 :
    (if truncate
     then Db.bind (table_exists sn tn) (fun present =>
            if present
            then Db.bind (Db.execute (TruncateTable sn tn)) (fun _ => Db.ret ())
            else Db.ret ())
     else Db.ret ()) c1 = (Ret (), c2)).
  { unfold c2, truncation_events. destruct truncate.
    - unfold Db.bind at 1. rewrite table_exists_run.
      rewrite bool_decide_true by (by rewrite Hdata1).
      unfold Db.bind, Db.execute, Db.backend, Db.ret, Db.log. simpl.
      rewrite bool_decide_true by (by rewrite Hdata1). simpl.
      by rewrite <- !app_assoc.
    - unfold Db.ret. destruct c1. simpl. by rewrite !app_nil_r. }
  assert (Hdata2 : tables c2 !! (sn, tn) = Some (if truncate then [] else data)).
  { unfold c2. simpl. destruct truncate; [by rewrite lookup_insert_eq|done]. }
  destruct (insert_rows_run sn tn col_types headers rows 0 c2 _ Hdata2 Hconv)
    as (vss & c3 & Hrun & Hall & Hs3 & Ht3 & Hf3 & Htr3).
  exists vss, (Db.log Commit c3). split_and!.
  - unfold Db.bind at 1. rewrite Hstep1. unfold Db.bind at 1. rewrite Hstep2.
    unfold Db.bind at 1. rewrite Hrun. unfold Db.bind, Db.commit, Db.ret. simpl. done.
  - done.
  - simpl. rewrite Htr3. unfold c2. simpl. by rewrite Htr1, <- !app_assoc.
  - simpl. by rewrite Hs3.
  - done.
  - intros k Hk. simpl. rewrite (Hf3 k Hk). unfold c2. simpl.
    destruct truncate; [rewrite lookup_insert_ne by done|]; by apply Hframe1.
Qed.

Lemma import_csv_statements_witness :
  exists vss c',
    import_csv ids_file "s" "t" true true (conn_with_table "s" "x")
    = (Ret 2, c')
    /\ Forall2 (fun r vs =>
                  convert_row (infer_column_types ["id"; "note"] (rows ids_file))
                    ["id"; "note"] r = Ret vs)
               (rows ids_file) vss
    /\ trace c'
       = [] ++ creation_events "s" "t"
                 (infer_column_types ["id"; "note"] (rows ids_file)) true
                 (bool_decide (is_Some (tables (conn_with_table "s" "x") !! ("s", "t"))))
           ++ truncation_events "s" "t" true
           ++ ((fun vs => Execute (InsertInto "s" "t" ["id"; "note"] vs)) <$> vss)
           ++ [Commit]
    /\ schemas c' = {[ "s" ]}
    /\ tables c' !! ("s", "t")
       = Some ([] ++ vss)
    /\ (forall k, k <> ("s", "t") ->
          tables c' !! k = tables (conn_with_table "s" "x") !! k).
Proof.
  apply (import_csv_statements ids_file ["id"; "note"] "s" "t" true true
           (conn_with_table "s" "x")).
  - reflexivity.
  - discriminate.
  - discriminate.
  - right. split; [reflexivity|]. simpl. by apply elem_of_singleton.
Defined.

(** X12.  With creation not requested and the table absent, an import of a
    file with a header and rows fails at its first insert with the driver's
    error: that insert is the last thing sent (after the existence query of a
    requested truncation), nothing is committed, and the catalog is as
    before. *)
Theorem import_csv_absent_table file headers sn tn truncate c :
  fieldnames file = Some headers -> headers <> [] -> rows file <> [] ->
  tables c !! (sn, tn) = None ->
  exists r vs c',
    head (rows file) = Some r
    /\ convert_row (infer_column_types headers (rows file)) headers r = Ret vs
    /\ import_csv file sn tn false truncate c = (Raise Py.DatabaseError, c')
    /\ trace c'
       = trace c ++ (if truncate then [Execute (SelectTableCount sn tn)] else [])
           ++ [Execute (InsertInto sn tn headers vs)]
    /\ schemas c' = schemas c /\ tables c' = tables c.
Proof.
  intros Hfn Hh Hrows Habsent. unfold import_csv. rewrite Hfn.
  destruct headers as [|h0 hs]; [done|]. set (headers := h0 :: hs) in *.
  destruct (rows file) as [|r0 rs] eqn:Hrs; [done|]. set (rows := r0 :: rs) in *.
  destruct (convert_row_inferred headers rows r0) as [vs Hvs]; [by left|].
  set (c2 := {| schemas := schemas c; tables := tables c;
                trace := trace c
                  ++ (if truncate then [Execute (SelectTableCount sn tn)] else []) |}).
  exists r0, vs, (Db.log (Execute (InsertInto sn tn headers vs)) c2).
  split_and!; [done|done| |by simpl; rewrite <- app_assoc|done|done].
  unfold Db.bind at 1. unfold Db.ret at 1. unfold Db.bind at 1.
  assert (Hstep2 :
    (if truncate
     then Db.bind (table_exists sn tn) (fun present =>
            if present
            then Db.bind (Db.execute (TruncateTable sn tn)) (fun _ => Db.ret ())
            else Db.ret ())
     else Db.ret ()) c = (Ret (), c2)).
  { unfold c2. destruct truncate.
    - unfold Db.bind at 1. rewrite table_exists_run.
      rewrite bool_decide_false by (rewrite Habsent; by intros [? [=]]). done.
    - unfold Db.ret. destruct c. simpl. by rewrite app_nil_r. }
  rewrite Hstep2. unfold Db.bind at 1. unfold rows at 2. cbn [insert_rows].
  unfold Db.bind at 1. unfold lift at 1. rewrite Hvs.
  unfold Db.bind at 1. unfold Db.execute, Db.backend. simpl.
  rewrite bool_decide_false by (rewrite Habsent; by intros [? [=]]). done.
Qed.

Lemma import_csv_absent_table_witness :
  exists r vs c',
    head (rows ids_file) = Some r
    /\ convert_row (infer_column_types ["id"; "note"] (rows ids_file))
         ["id"; "note"] r = Ret vs
    /\ import_csv ids_file "s" "t" false true empty_conn
       = (Raise Py.DatabaseError, c')
    /\ trace c'
       = [] ++ [Execute (SelectTableCount "s" "t")]
           ++ [Execute (InsertInto "s" "t" ["id"; "note"] vs)]
    /\ schemas c' = ∅ /\ tables c' = ∅.
Proof.
  apply (import_csv_absent_table ids_file ["id"; "note"] "s" "t" true empty_conn).
  - reflexivity.
  - discriminate.
  - discriminate.
  - reflexivity.
Defined.

(** ** Schema creation and drop *)

(** X13.  [create_schema] returns [True] and the schema exists afterwards.
    For a schema that exists already it sends the existence query alone; for
    a new one it sends the creation and a commit after the query.  No table
    is touched and no other schema is added. *)
Theorem create_schema_ensures c sn :
  exists c',
    create_schema sn c = (Ret true, c')
    /\ schemas c' = {[ sn ]} ∪ schemas c
    /\ tables c' = tables c
    /\ trace c'
       = trace c ++ Execute (SelectSchemaCount sn)
           :: (if bool_decide (sn ∈ schemas c) then []
               else [Execute (CreateSchema sn); Commit])
    /\ schema_exists sn c' = (Ret true, Db.log (Execute (SelectSchemaCount sn)) c').
Proof.
  unfold create_schema, Db.bind. rewrite schema_exists_run.
  destruct (decide (sn ∈ schemas c)) as [Hin|Hnin].
  - rewrite (bool_decide_true _ Hin). eexists. split; [reflexivity|].
    simpl. split_and!; [|done|done|].
    + apply set_eq. intros x. rewrite elem_of_union, elem_of_singleton.
      split; [by right|]. intros [->|?]; done.
    + rewrite schema_exists_run. simpl. by rewrite (bool_decide_true _ Hin).
  - rewrite (bool_decide_false _ Hnin). unfold Db.execute, Db.backend, Db.commit. simpl.
    rewrite (bool_decide_false _ Hnin). simpl. eexists. split; [reflexivity|].
    simpl. split_and!; [done|done|by rewrite <- !app_assoc|].
    rewrite schema_exists_run. simpl.
    rewrite bool_decide_true; [done|]. apply elem_of_union. left.
    by apply elem_of_singleton.
Qed.

Lemma elem_of_tables_of sn tn c :
  tn ∈ Db.tables_of sn c <-> is_Some (tables c !! (sn, tn)).
Proof.
  unfold Db.tables_of. rewrite list_elem_of_omap. split.
  - intros ([[sn' tn'] data] & Hin & Hsel). simpl in Hsel.
    destruct (String.eqb_spec sn' sn) as [->|]; [|done]. injection Hsel as ->.
    apply elem_of_map_to_list in Hin. by rewrite Hin.
  - intros [data Hdata]. exists ((sn, tn), data). split.
    + by apply elem_of_map_to_list.
    + simpl. by rewrite String.eqb_refl.
Qed.

Lemma NoDup_tables_of sn c : NoDup (Db.tables_of sn c).
Proof.
  unfold Db.tables_of.
  assert (Hfun : forall k d d', (k, d) ∈ map_to_list (tables c) ->
                   (k, d') ∈ map_to_list (tables c) -> d = d').
  { intros k d d' H1%elem_of_map_to_list H2%elem_of_map_to_list. congruence. }
  pose proof (NoDup_map_to_list (tables c)) as Hnd.
  induction (map_to_list (tables c)) as [|[[sn' tn'] data] l IH]; csimpl;
    [constructor|].
  apply NoDup_cons in Hnd as [Hnotin Hnd].
  assert (IH' := IH (fun k d d' H1 H2 =>
                       Hfun k d d' (list_elem_of_further _ _ _ H1)
                                   (list_elem_of_further _ _ _ H2)) Hnd).
  destruct (String.eqb_spec sn' sn) as [->|]; csimpl; [|done].
  apply NoDup_cons. split; [|done].
  intros ([[sn2 tn2] data2] & Hin & Hsel)%list_elem_of_omap. simpl in Hsel.
  destruct (String.eqb_spec sn2 sn) as [->|]; [|done]. injection Hsel as ->.
  apply Hnotin.
  rewrite (Hfun (sn, tn') data data2); [done|by left|by right].
Qed.

Lemma tables_of_nil sn c :
  (forall tn, tables c !! (sn, tn) = None) -> Db.tables_of sn c = [].
Proof.
  intros Hnone. destruct (Db.tables_of sn c) as [|tn l] eqn:Hl; [done|].
  assert (Hin : tn ∈ Db.tables_of sn c) by (rewrite Hl; left).
  apply elem_of_tables_of in Hin as [d Hd]. by rewrite Hnone in Hd.
Qed.

Lemma first_name_listing (names : list string) :
  first_name <$> ((fun t => [VStr t]) <$> names) = names.
Proof. induction names as [|n names IH]; csimpl; [done|]. by rewrite IH. Qed.

(** The loop of table drops over tables that exist. *)
Lemma drop_tables_run sn names : forall c,
  NoDup names -> (forall tn, tn ∈ names -> is_Some (tables c !! (sn, tn))) ->
  exists c',
    Db.for_each names (fun table =>
      Db.bind (Db.execute (DropTable sn table)) (fun _ => Db.ret ())) c
    = (Ret (), c')
    /\ schemas c' = schemas c
    /\ trace c' = trace c ++ ((fun tn => Execute (DropTable sn tn)) <$> names)
    /\ (forall tn, tn ∈ names -> tables c' !! (sn, tn) = None)
    /\ (forall k, (forall tn, tn ∈ names -> k <> (sn, tn)) ->
          tables c' !! k = tables c !! k).
Proof.
  induction names as [|tn names IH]; intros c Hnd Hall.
  - exists c. simpl. rewrite app_nil_r. split_and!; try done.
    intros tn Hin. inversion Hin.
  - apply NoDup_cons in Hnd as [Hnotin Hnd].
    set (c1 := {| schemas := schemas c; tables := delete (sn, tn) (tables c);
                  trace := trace c ++ [Execute (DropTable sn tn)] |}).
    destruct (IH c1 Hnd) as (c' & Hrun & Hs & Htr & Hgone & Hframe).
    { intros tn' Hin'. simpl. rewrite lookup_delete_ne; [apply Hall; by right|].
      intros [= <-]. done. }
    exists c'. split_and!.
    + cbn [Db.for_each]. unfold Db.bind at 1. unfold Db.bind at 1.
      unfold Db.execute, Db.backend. simpl.
      rewrite bool_decide_true by (apply Hall; left). simpl.
      unfold Db.ret at 1. fold c1. exact Hrun.
    + done.
    + rewrite Htr. simpl. by rewrite <- app_assoc.
    + intros tn' Hin'. apply elem_of_cons in Hin' as [->|Hin']; [|by apply Hgone].
      rewrite Hframe; [simpl; apply lookup_delete_eq|].
      intros tn' Hin' [= <-]. done.
    + intros k Hk. rewrite Hframe.
      * simpl. apply lookup_delete_ne. intros <-. by apply (Hk tn); [left|].
      * intros tn' Hin'. apply Hk. by right.
Qed.

(** X14.  For a schema that exists, a cascading [drop_schema] returns [True]
    after sending the existence query, the table listing, one table drop for
    each table of the schema, the schema drop and a commit.  Afterwards the
    schema is gone with all its tables; the other schemas and their tables
    are as before. *)
Theorem drop_schema_cascade c sn :
  sn ∈ schemas c ->
  exists c',
    drop_schema sn true c = (Ret true, c')
    /\ schemas c' = schemas c ∖ {[ sn ]}
    /\ (forall k, tables c' !! k = if String.eqb k.1 sn then None else tables c !! k)
    /\ trace c'
       = trace c
           ++ [Execute (SelectSchemaCount sn); Execute (SelectTableNames sn)]
           ++ ((fun tn => Execute (DropTable sn tn)) <$> Db.tables_of sn c)
           ++ [Execute (DropSchema sn); Commit].
Proof.
  intros Hin. unfold drop_schema. unfold Db.bind at 1. rewrite schema_exists_run.
  rewrite (bool_decide_true _ Hin). cbn [negb].
  set (c1 := {| schemas := schemas c; tables := tables c;
                trace := (trace c ++ [Execute (SelectSchemaCount sn)])
                           ++ [Execute (SelectTableNames sn)] |}).
  destruct (drop_tables_run sn (Db.tables_of sn c) c1 (NoDup_tables_of sn c))
    as (c2 & Hrun & Hs & Htr & Hgone & Hframe).
  { intros tn Htn. by apply elem_of_tables_of in Htn. }
  assert (Hempty : Db.tables_of sn c2 = []).
  { apply tables_of_nil. intros tn.
    destruct (decide (tn ∈ Db.tables_of sn c)) as [Htn|Htn]; [by apply Hgone|].
    rewrite Hframe.
    - simpl. apply eq_None_not_Some. by rewrite <- elem_of_tables_of.
    - intros tn' Htn' [= <-]. done. }
  exists {| schemas := schemas c2 ∖ {[ sn ]}; tables := tables c2;
            trace := (trace c2 ++ [Execute (DropSchema sn)]) ++ [Commit] |}.
  split_and!.
  - unfold Db.bind at 1. unfold Db.bind at 1.
    unfold Db.execute at 1. unfold Db.backend at 1. cbn [Db.log schemas tables trace].
    change (Db.log (Execute (SelectTableNames sn))
              (Db.log (Execute (SelectSchemaCount sn)) c)) with c1.
    change (Db.tables_of sn c1) with (Db.tables_of sn c).
    rewrite first_name_listing, Hrun.
    unfold Db.bind, Db.execute, Db.backend, Db.commit, Db.ret, Db.log. simpl.
    change (Db.tables_of sn _) with (Db.tables_of sn c2).
    rewrite Hs. simpl. by rewrite (bool_decide_true _ Hin), Hempty.
  - simpl. by rewrite Hs.
  - intros [sn' tn']. simpl.
    destruct (String.eqb_spec sn' sn) as [->|Hne].
    + destruct (decide (tn' ∈ Db.tables_of sn c)) as [Htn|Htn]; [by apply Hgone|].
      rewrite Hframe.
      * simpl. apply eq_None_not_Some. by rewrite <- elem_of_tables_of.
      * intros tn Htn'' [= <-]. done.
    + rewrite Hframe; [done|]. intros tn _ [= ? _]. done.
  - simpl. rewrite Htr. simpl. by rewrite <- !app_assoc.
Qed.

Lemma drop_schema_cascade_witness :
  exists c',
    drop_schema "s" true two_schema_conn = (Ret true, c')
    /\ schemas c' = schemas two_schema_conn ∖ {[ "s" ]}
    /\ (forall k, tables c' !! k
                  = if String.eqb k.1 "s" then None else tables two_schema_conn !! k)
    /\ trace c'
       = trace two_schema_conn
           ++ [Execute (SelectSchemaCount "s"); Execute (SelectTableNames "s")]
           ++ ((fun tn => Execute (DropTable "s" tn))
                 <$> Db.tables_of "s" two_schema_conn)
           ++ [Execute (DropSchema "s"); Commit].
Proof.
  apply (drop_schema_cascade two_schema_conn "s").
  simpl. apply elem_of_union. left. by apply elem_of_singleton.
Defined.

(** X15.  Without cascade, [drop_schema] on a schema that exists sends the
    existence query and the schema drop and never lists or drops a table.
    When the schema has no table it is dropped and the drop committed; when
    it has one the driver's error comes out, nothing is committed and the
    catalog is as before. *)
Theorem drop_schema_no_cascade c sn :
  sn ∈ schemas c ->
  exists c',
    drop_schema sn false c
    = (if bool_decide (Db.tables_of sn c = []) then Ret true
       else Raise Py.DatabaseError, c')
    /\ schemas c'
       = (if bool_decide (Db.tables_of sn c = []) then schemas c ∖ {[ sn ]}
          else schemas c)
    /\ tables c' = tables c
    /\ trace c'
       = trace c ++ [Execute (SelectSchemaCount sn); Execute (DropSchema sn)]
           ++ (if bool_decide (Db.tables_of sn c = []) then [Commit] else []).
Proof.
  intros Hin. unfold drop_schema. unfold Db.bind at 1. rewrite schema_exists_run.
  rewrite (bool_decide_true _ Hin). cbn [negb].
  unfold Db.bind, Db.ret, Db.execute, Db.backend, Db.commit, Db.log. simpl.
  rewrite (bool_decide_true _ Hin). simpl.
  change (Db.tables_of sn _) with (Db.tables_of sn c).
  destruct (bool_decide (Db.tables_of sn c = [])); simpl;
    eexists; (split; [reflexivity|]); simpl;
    by rewrite <- ?app_assoc.
Qed.

Lemma drop_schema_no_cascade_witness :
  exists c',
    drop_schema "s" false two_schema_conn
    = (if bool_decide (Db.tables_of "s" two_schema_conn = []) then Ret true
       else Raise Py.DatabaseError, c')
    /\ schemas c'
       = (if bool_decide (Db.tables_of "s" two_schema_conn = [])
          then schemas two_schema_conn ∖ {[ "s" ]}
          else schemas two_schema_conn)
    /\ tables c' = tables two_schema_conn
    /\ trace c'
       = trace two_schema_conn
           ++ [Execute (SelectSchemaCount "s"); Execute (DropSchema "s")]
           ++ (if bool_decide (Db.tables_of "s" two_schema_conn = [])
               then [Commit] else []).
Proof.
  apply (drop_schema_no_cascade two_schema_conn "s").
  simpl. apply elem_of_union. left. by apply elem_of_singleton.
Defined.

(** X16.  Creating a schema that is absent and has no table, then dropping
    it with cascade, gives back the catalog there was. *)
Theorem create_then_drop_schema c sn :
  sn ∉ schemas c -> (forall tn, tables c !! (sn, tn) = None) ->
  exists c1 c2,
    create_schema sn c = (Ret true, c1)
    /\ drop_schema sn true c1 = (Ret true, c2)
    /\ schemas c2 = schemas c
    /\ tables c2 = tables c.
Proof.
  intros Hnin Hnone.
  assert (Hcreate : create_schema sn c
    = (Ret true, {| schemas := {[ sn ]} ∪ schemas c; tables := tables c;
                    trace := ((trace c ++ [Execute (SelectSchemaCount sn)])
                                ++ [Execute (CreateSchema sn)]) ++ [Commit] |})).
  { unfold create_schema, Db.bind. rewrite schema_exists_run.
    rewrite (bool_decide_false _ Hnin). unfold Db.execute, Db.backend, Db.commit. simpl.
    by rewrite (bool_decide_false _ Hnin). }
  eexists _, _. split; [exact Hcreate|].
  set (c1 := {| schemas := {[ sn ]} ∪ schemas c; tables := tables c; trace := _ |}).
  assert (Hin : sn ∈ schemas c1).
  { simpl. apply elem_of_union. left. by apply elem_of_singleton. }
  assert (Hempty : Db.tables_of sn c1 = []) by (by apply tables_of_nil).
  assert (Hdrop : drop_schema sn true c1
    = (Ret true, {| schemas := schemas c1 ∖ {[ sn ]}; tables := tables c1;
                    trace := (((trace c1 ++ [Execute (SelectSchemaCount sn)])
                                 ++ [Execute (SelectTableNames sn)])
                                ++ [Execute (DropSchema sn)]) ++ [Commit] |})).
  { unfold drop_schema. unfold Db.bind at 1. rewrite schema_exists_run.
    rewrite (bool_decide_true _ Hin). cbn [negb].
    unfold Db.bind at 1. unfold Db.bind at 1.
    unfold Db.execute at 1. unfold Db.backend at 1. cbn [Db.log schemas tables trace].
    change (Db.tables_of sn _) with (Db.tables_of sn c1). rewrite Hempty.
    cbn [fmap list_fmap Db.for_each].
    unfold Db.bind, Db.execute, Db.backend, Db.commit, Db.ret, Db.log. simpl.
    rewrite bool_decide_true by (apply elem_of_union; left; by apply elem_of_singleton).
    change (Db.tables_of sn _) with (Db.tables_of sn c1). rewrite Hempty. done. }
  split; [exact Hdrop|]. simpl. split; [|done].
  apply set_eq. intros x. rewrite elem_of_difference, elem_of_union, !elem_of_singleton.
  split; [intros [[->|?] ?]; done|]. intros Hx. split; [by right|]. by intros ->.
Qed.

Lemma create_then_drop_schema_witness :
  exists c1 c2,
    create_schema "new" two_schema_conn = (Ret true, c1)
    /\ drop_schema "new" true c1 = (Ret true, c2)
    /\ schemas c2 = schemas two_schema_conn
    /\ tables c2 = tables two_schema_conn.
Proof.
  apply (create_then_drop_schema two_schema_conn "new").
  - simpl. intros [Hin|Hin]%elem_of_union; apply elem_of_singleton in Hin; discriminate.
  - intros tn. unfold two_schema_conn. cbn [tables].
    rewrite !lookup_insert_ne by (intros [=]). apply lookup_singleton_ne. intros [=].
Defined.

(** ** The table creation statement *)

(** X17.  For headers without repetition, the statement made from the
    inferred types declares one column per header, in header order, each
    with the type inferred for it and [NULL]. *)
Theorem create_table_of_inferred_types sn tn headers rows :
  NoDup headers ->
  generate_create_table sn tn (infer_column_types headers rows)
  = ("CREATE TABLE [" ++ sn ++ "].[" ++ tn ++ "] (" ++ nl ++ "    "
     ++ String.concat ("," ++ nl ++ "    ")
          ((fun h => "[" ++ h ++ "] " ++ infer_values (column_values h rows) ++ " NULL")
             <$> headers)
     ++ nl ++ ")")%string.
Proof.
  intros Hnd. unfold generate_create_table.
  rewrite (infer_column_types_NoDup headers rows Hnd).
  by rewrite <- list_fmap_compose.
Qed.

Lemma create_table_of_inferred_types_witness :
  generate_create_table "s" "t" (infer_column_types ["id"; "amount"] (rows amounts_file))
  = ("CREATE TABLE [s].[t] (" ++ nl ++ "    [id] INT NULL," ++ nl
     ++ "    [amount] DECIMAL(18,6) NULL" ++ nl ++ ")")%string.
Proof.
  rewrite (create_table_of_inferred_types "s" "t" ["id"; "amount"] (rows amounts_file)).
  - vm_compute. reflexivity.
  - apply NoDup_cons. split; [|apply NoDup_singleton].
    intros Hin. apply list_elem_of_singleton in Hin. discriminate.
Defined.

(** ** More on the comparison *)

Lemma cells_differ_refl v : cells_differ v v = false.
Proof. unfold cells_differ. by rewrite String.eqb_refl. Qed.

Lemma Forall_zip_diag {A} (P : A * A -> Prop) (l : list A) :
  (forall x, P (x, x)) -> Forall P (zip l l).
Proof. intros HP. induction l; simpl; constructor; auto. Qed.

Lemma compare_self file ignore_order :
  well_formed file -> compare_csv_files file file ignore_order = Ret (true, []).
Proof.
  intros [headers Hh].
  destruct (compare_csv_files_run file file ignore_order _ _ Hh Hh)
    as (m & d & Hrun & Hm & Hd).
  assert (d = []) as ->.
  { apply Hd. split_and!; [by apply header_sets_agree|done|].
    unfold paired_rows. destruct ignore_order; apply Forall_zip_diag;
      intros r h _; apply cells_differ_refl. }
  rewrite Hrun. by rewrite (proj2 Hm).
Qed.

Lemma compare_permuted file1 file2 rows1' rows2' :
  well_formed file1 -> well_formed file2 ->
  rows1' ≡ₚ rows file1 -> rows2' ≡ₚ rows file2 ->
  compare_csv_files {| fieldnames := fieldnames file1; rows := rows1' |}
                    {| fieldnames := fieldnames file2; rows := rows2' |} true
  = compare_csv_files file1 file2 true.
Proof.
  intros [headers1 H1] [headers2 H2] Hp1 Hp2.
  unfold compare_csv_files. cbn [fieldnames rows]. rewrite H1, H2.
  rewrite (Permutation_length Hp1), (Permutation_length Hp2).
  by rewrite (cell_diffs_keys headers1 _ _ _ _
                (row_keys_Permutation headers1 _ _ Hp1)
                (row_keys_Permutation headers1 _ _ Hp2)).
Qed.

(** X18.  A well-formed file compared with itself matches, with no
    difference, in either mode. *)
Theorem compare_reflexive file ignore_order :
  well_formed file -> compare_csv_files file file ignore_order = Ret (true, []).
Proof.
  intros [headers Hh].
  destruct (compare_csv_files_run file file ignore_order _ _ Hh Hh)
    as (m & d & Hrun & Hm & Hd).
  assert (Hnone : d = []).
  { apply Hd. split_and!; [by apply header_sets_agree|done|].
    unfold paired_rows. destruct ignore_order; apply Forall_zip_diag;
      intros r h _; apply cells_differ_refl. }
  subst d. rewrite Hrun. by rewrite (proj2 Hm).
Qed.

Lemma compare_reflexive_witness :
  compare_csv_files left_file left_file false = Ret (true, []).
Proof. apply (compare_reflexive left_file false). by eexists. Defined.

(** X19.  In the order-insensitive mode a well-formed file matches, with no
    difference, every file that has its header and its rows in another
    order. *)
Theorem compare_shuffled_matches file rows' :
  well_formed file -> rows' ≡ₚ rows file ->
  compare_csv_files file {| fieldnames := fieldnames file; rows := rows' |} true
  = Ret (true, []).
Proof.
  intros Hwf Hp.
  pose proof (compare_permuted file file (rows file) rows' Hwf Hwf
                (reflexivity _) Hp) as Heq.
  destruct file as [fn rs]. cbn [fieldnames rows] in *.
  rewrite Heq. by apply compare_self.
Qed.

Lemma compare_shuffled_matches_witness :
  compare_csv_files left_file
    {| fieldnames := fieldnames left_file; rows := reverse (rows left_file) |} true
  = Ret (true, []).
Proof.
  apply (compare_shuffled_matches left_file).
  - by eexists.
  - apply reverse_Permutation.
Defined.

Lemma compare_rows_sound hs hs2 n1 n2 i rr d :
  (i < Nat.min n1 n2)%nat -> d ∈ compare_rows hs i rr ->
  difference_sound hs hs2 n1 n2 d.
Proof.
  intros Hi. unfold compare_rows. rewrite list_elem_of_omap.
  intros (h & Hh & Hsel).
  destruct (cells_differ (str (row_get rr.1 h)) (str (row_get rr.2 h))) eqn:Hd; [|done].
  injection Hsel as <-. simpl. split_and!; [lia|lia|done| |done].
  intros Heq. rewrite Heq, cells_differ_refl in Hd. done.
Qed.

(** X20.  Every difference reported for two well-formed files is real: a
    header difference is there only when the header sets differ, a row count
    difference only when the counts differ, and a cell difference names a
    header of the first file, a row number between 1 and the smaller row
    count, and two texts that differ. *)
Theorem compare_differences_sound file1 file2 ignore_order headers1 headers2 m d x :
  fieldnames file1 = Some headers1 -> fieldnames file2 = Some headers2 ->
  compare_csv_files file1 file2 ignore_order = Ret (m, d) ->
  x ∈ d ->
  difference_sound headers1 headers2 (length (rows file1)) (length (rows file2)) x.
Proof.
  intros H1 H2. unfold compare_csv_files. rewrite H1, H2.
  set (n1 := length (rows file1)). set (n2 := length (rows file2)).
  assert (Hcells : forall l1 l2 : list row,
    length l1 = n1 -> length l2 = n2 ->
    x ∈ concat (imap (compare_rows headers1) (zip l1 l2)) ->
    difference_sound headers1 headers2 n1 n2 x).
  { intros l1 l2 Hl1 Hl2 Hx. apply list_elem_of_In, in_concat in Hx as (ds & Hds & Hx).
    apply list_elem_of_In, elem_of_lookup_imap in Hds as (i & rr & -> & Hrr).
    apply (compare_rows_sound headers1 headers2 n1 n2 i rr); [|by apply list_elem_of_In].
    apply lookup_lt_Some in Hrr. rewrite length_zip in Hrr. lia. }
  assert (Hgen : forall l1 l2 : list row,
    length l1 = n1 -> length l2 = n2 ->
    x ∈ (if header_sets_differ headers1 headers2
         then [HeadersDiffer headers1 headers2] else [])
        ++ (if negb (n1 =? n2)%nat then [RowCountDiffers n1 n2] else [])
        ++ concat (imap (compare_rows headers1) (zip l1 l2)) ->
    difference_sound headers1 headers2 n1 n2 x).
  { intros l1 l2 Hl1 Hl2 Hx.
    apply elem_of_app in Hx as [Hx|Hx].
    { destruct (header_sets_differ headers1 headers2) eqn:Hhd; [|inversion Hx].
      apply list_elem_of_singleton in Hx as ->. by simpl. }
    apply elem_of_app in Hx as [Hx|Hx]; [|by apply (Hcells l1 l2)].
    destruct (Nat.eqb_spec n1 n2); simpl in Hx; [inversion Hx|].
    apply list_elem_of_singleton in Hx as ->. by simpl. }
  destruct ignore_order; intros [= <- <-] Hx.
  - apply (Hgen _ _ (Permutation_length (sorted_Permutation _ _ _))
                    (Permutation_length (sorted_Permutation _ _ _)) Hx).
  - by apply (Hgen (rows file1) (rows file2)).
Qed.

Lemma compare_differences_sound_witness :
  difference_sound ["a"; "b"] ["a"; "b"] 1 1 (CellDiffers 1 "b" "2" "3").
Proof.
  apply (compare_differences_sound
           (DictReader [["a"; "b"]; ["1"; "2"]]) (DictReader [["a"; "b"]; ["1"; "3"]])
           true ["a"; "b"] ["a"; "b"] false [CellDiffers 1 "b" "2" "3"]).
  - reflexivity.
  - reflexivity.
  - vm_compute. reflexivity.
  - left.
Defined.

Lemma match_conditions_headers headers1 headers1' headers2 headers2' rows1 rows2
    ignore_order :
  (forall h, h ∈ headers1 <-> h ∈ headers1') ->
  (forall h, h ∈ headers2 <-> h ∈ headers2') ->
  header_sets_differ headers1 headers2 = false
  /\ length rows1 = length rows2
  /\ Forall (cells_agree headers1) (paired_rows headers1 rows1 rows2 ignore_order) ->
  header_sets_differ headers1' headers2' = false
  /\ length rows1 = length rows2
  /\ Forall (cells_agree headers1') (paired_rows headers1' rows1 rows2 ignore_order).
Proof.
  intros Hh1 Hh2 (Hh & Hl & Hf). rewrite header_sets_agree in Hh.
  split_and!; [|done|].
  - apply header_sets_agree. intros h. by rewrite <- Hh1, <- Hh2.
  - assert (Hpair : paired_rows headers1' rows1 rows2 ignore_order
                    = paired_rows headers1 rows1 rows2 ignore_order).
    { unfold paired_rows. destruct ignore_order; [|done].
      by rewrite !(sorted_ext Py.tuple_lt Py.tuple_lt (row_key headers1')
                     (row_key headers1))
        by (intros; apply tuple_lt_row_key; intros h; by rewrite Hh1). }
    rewrite Hpair. eapply Forall_impl; [exact Hf|].
    intros rr Hrr h Hin. by apply Hrr, Hh1.
Qed.

(** X21.  The flag depends on the two headers only through their sets: the
    order of the columns in either file, and a repeated column name, do not
    change it. *)
Theorem compare_header_order file1 file2 headers1 headers1' headers2 headers2'
    ignore_order :
  fieldnames file1 = Some headers1 -> fieldnames file2 = Some headers2 ->
  (forall h, h ∈ headers1 <-> h ∈ headers1') ->
  (forall h, h ∈ headers2 <-> h ∈ headers2') ->
  exists m d d',
    compare_csv_files file1 file2 ignore_order = Ret (m, d)
    /\ compare_csv_files {| fieldnames := Some headers1'; rows := rows file1 |}
                         {| fieldnames := Some headers2'; rows := rows file2 |}
                         ignore_order
       = Ret (m, d').
Proof.
  intros H1 H2 Hh1 Hh2.
  destruct (compare_csv_files_run file1 file2 ignore_order _ _ H1 H2)
    as (m & d & Hrun & Hm & Hd).
  destruct (compare_csv_files_run
              {| fieldnames := Some headers1'; rows := rows file1 |}
              {| fieldnames := Some headers2'; rows := rows file2 |}
              ignore_order headers1' headers2' eq_refl eq_refl)
    as (m' & d' & Hrun' & Hm' & Hd').
  cbn [rows] in Hd'.
  exists m, d, d'. split; [done|]. rewrite Hrun'. do 2 f_equal.
  apply eq_true_iff_eq. rewrite Hm, Hm', Hd, Hd'. split.
  - by apply match_conditions_headers.
  - apply match_conditions_headers; intros h; by rewrite ?Hh1, ?Hh2.
Qed.

Lemma compare_header_order_witness :
  exists m d d',
    compare_csv_files left_file right_file true = Ret (m, d)
    /\ compare_csv_files {| fieldnames := Some ["b"; "a"; "b"]; rows := rows left_file |}
                         {| fieldnames := Some ["a"; "b"]; rows := rows right_file |}
                         true
       = Ret (m, d').
Proof.
  apply (compare_header_order left_file right_file ["a"; "b"] ["b"; "a"; "b"]
           ["b"; "a"] ["a"; "b"] true).
  - reflexivity.
  - reflexivity.
  - intros h. rewrite !elem_of_cons. split; intros H'; tauto.
  - intros h. rewrite !elem_of_cons. split; intros H'; tauto.
Defined.

Lemma float_eq_trans a b c :
  Py.float_eq a b = true -> Py.float_eq b c = true -> Py.float_eq a c = true.
Proof.
  destruct a as [|s1|s1 m1 e1], b as [|s2|s2 m2 e2], c as [|s3|s3 m3 e3];
    simpl; try done.
  - by destruct s1, s2, s3.
  - rewrite !orb_true_iff, !andb_true_iff, !Z.eqb_eq, !eqb_true_iff.
    intros [[-> ->]|[[-> ->] ->]] [[? ->]|[[-> ->] ->]]; auto.
Qed.

Lemma cells_differ_trans a b c :
  cells_differ a b = false -> cells_differ b c = false -> cells_differ a c = false.
Proof.
  unfold cells_differ.
  destruct (String.eqb_spec a b) as [->|Hab]; [done|].
  destruct (String.eqb_spec b c) as [->|Hbc].
  { intros Hac _. by rewrite (string_eqb_false a c) by done. }
  destruct (String.eqb_spec a c) as [|Hac]; [done|].
  destruct (Py.float_of_str a) as [x|], (Py.float_of_str b) as [y|],
    (Py.float_of_str c) as [z|]; try done.
  rewrite !negb_false_iff. apply float_eq_trans.
Qed.

Lemma zip_agree_trans hs hs' (l1 : list row) : forall l2 l3 : list row,
  (forall h, h ∈ hs <-> h ∈ hs') ->
  length l1 = length l2 -> length l2 = length l3 ->
  Forall (cells_agree hs) (zip l1 l2) -> Forall (cells_agree hs') (zip l2 l3) ->
  Forall (cells_agree hs) (zip l1 l3).
Proof.
  induction l1 as [|r1 l1 IH]; intros [|r2 l2] [|r3 l3] Hset; simpl; try done.
  intros [= Hl12] [= Hl23]. rewrite !Forall_cons.
  intros [H12 Hrest12] [H23 Hrest23]. split; [|by apply (IH l2 l3)].
  intros h Hh. simpl.
  apply (cells_differ_trans _ (str (row_get r2 h))); [by apply H12|].
  by apply H23, Hset.
Qed.

(** X22.  In the order-sensitive mode matching carries over: when a first
    file matches a second and the second a third, the first matches the
    third, with no difference. *)
Theorem compare_in_order_transitive file1 file2 file3 d12 d23 :
  compare_csv_files file1 file2 false = Ret (true, d12) ->
  compare_csv_files file2 file3 false = Ret (true, d23) ->
  compare_csv_files file1 file3 false = Ret (true, []).
Proof.
  intros H12 H23.
  destruct (fieldnames file1) as [headers1|] eqn:Hf1;
    [|by unfold compare_csv_files in H12; rewrite Hf1 in H12].
  destruct (fieldnames file2) as [headers2|] eqn:Hf2;
    [|by unfold compare_csv_files in H12; rewrite Hf1, Hf2 in H12].
  destruct (fieldnames file3) as [headers3|] eqn:Hf3;
    [|by unfold compare_csv_files in H23; rewrite Hf2, Hf3 in H23].
  destruct (compare_csv_files_run file1 file2 false _ _ Hf1 Hf2)
    as (m & d & Hrun & Hm & Hd).
  rewrite H12 in Hrun. injection Hrun as <- <-.
  destruct (proj1 Hd (proj1 Hm eq_refl)) as (Hh12 & Hl12 & Hc12).
  destruct (compare_csv_files_run file2 file3 false _ _ Hf2 Hf3)
    as (m' & d' & Hrun' & Hm' & Hd').
  rewrite H23 in Hrun'. injection Hrun' as <- <-.
  destruct (proj1 Hd' (proj1 Hm' eq_refl)) as (Hh23 & Hl23 & Hc23).
  destruct (compare_csv_files_run file1 file3 false _ _ Hf1 Hf3)
    as (m13 & d13 & Hrun13 & Hm13 & Hd13).
  assert (d13 = []) as ->.
  { apply Hd13. rewrite header_sets_agree in Hh12, Hh23. split_and!.
    - apply header_sets_agree. intros h. by rewrite Hh12.
    - congruence.
    - unfold paired_rows in *. by apply (zip_agree_trans headers1 headers2 _ (rows file2)). }
  rewrite Hrun13. by rewrite (proj2 Hm13).
Qed.

Lemma compare_in_order_transitive_witness :
  compare_csv_files (DictReader [["a"]; ["1"]]) (DictReader [["a"]; ["1.00"]]) false
  = Ret (true, []).
Proof.
  apply (compare_in_order_transitive (DictReader [["a"]; ["1"]])
           (DictReader [["a"]; ["1.0"]]) (DictReader [["a"]; ["1.00"]]) [] []).
  - vm_compute. reflexivity.
  - vm_compute. reflexivity.
Defined.

(** X23.  [compare_csv_files] raises exactly when one of the files has no
    header, that is no record at all, and what it raises then is
    [TypeError]. *)
Theorem compare_raises file1 file2 ignore_order :
  (compare_csv_files file1 file2 ignore_order = Raise Py.TypeError
   <-> ~ (well_formed file1 /\ well_formed file2))
  /\ (forall e, compare_csv_files file1 file2 ignore_order = Raise e ->
                e = Py.TypeError).
Proof.
  unfold well_formed.
  destruct (fieldnames file1) as [headers1|] eqn:H1,
           (fieldnames file2) as [headers2|] eqn:H2.
  - destruct (compare_csv_files_run file1 file2 ignore_order _ _ H1 H2)
      as (m & d & Hrun & _). rewrite Hrun. split; [|done].
    split; [done|]. intros Hn. destruct Hn. by split.
  - unfold compare_csv_files. rewrite H1, H2. split; [|by intros e [= <-]].
    split; [|done]. intros _ [_ [? [=]]].
  - unfold compare_csv_files. rewrite H1. split; [|by intros e [= <-]].
    split; [|done]. intros _ [[? [=]] _].
  - unfold compare_csv_files. rewrite H1. split; [|by intros e [= <-]].
    split; [|done]. intros _ [[? [=]] _].
Qed.

Lemma compare_raises_witness :
  compare_csv_files (DictReader []) left_file true = Raise Py.TypeError.
Proof.
  apply (proj1 (compare_raises (DictReader []) left_file true)).
  intros [[? [=]] _].
Defined.

(** * Properties of compact-session.py *)

Lemma json_nested_ind (P : json -> Prop) :
  P JNull -> (forall b, P (JBool b)) -> (forall z, P (JInt z)) ->
  (forall f, P (JFloat f)) -> (forall s, P (JStr s)) ->
  (forall elements, Forall P elements -> P (JList elements)) ->
  (forall items, Forall (fun kv => P kv.2) items -> P (JDict items)) ->
  forall obj, P obj.
Proof.
  intros Hn Hb Hi Hf Hs Hl Hd. fix IH 1.
  intros [|b|z|f|s|elements|items];
    [exact Hn|apply Hb|apply Hi|apply Hf|apply Hs| |].
  - apply Hl. induction elements as [|item elements IHelements];
      constructor; [apply IH|exact IHelements].
  - apply Hd. induction items as [|[k v] items IHitems];
      constructor; [apply IH|exact IHitems].
Qed.

Lemma map_same {A} (f : A -> A) l : Forall (fun x => f x = x) l -> map f l = l.
Proof. induction 1 as [|x l Hx _ IH]; simpl; [done|]. by rewrite Hx, IH. Qed.



(** X25.  A value none of whose strings is longer than [max_size] comes back
    unchanged, inside a tool result or not. *)
Theorem truncate_content_short_strings max_size obj : forall path in_tool_result,
  all_strings (fun s => Z.of_nat (String.length s) <=? max_size) obj = true ->
  truncate_content obj max_size path in_tool_result = obj.
Proof.
  induction obj as [| | | |s|elements IH|items IH] using json_nested_ind;
    intros path in_tool_result Hshort; simpl in *; try done.
  - apply Z.leb_le in Hshort.
    rewrite (proj2 (Z.ltb_ge max_size (Z.of_nat (String.length s)))) by done.
    by rewrite andb_false_r.
  - f_equal. rewrite forallb_forall in Hshort.
    apply map_same. rewrite List.Forall_forall in IH.
    apply List.Forall_forall. intros item Hitem. apply IH; auto.
  - destruct (has_type items "thinking" && has_key items "signature"); [done|].
    f_equal. rewrite forallb_forall in Hshort.
    apply map_same. rewrite List.Forall_forall in IH.
    apply List.Forall_forall. intros [k v] Hkv. simpl.
    rewrite (IH (k, v) Hkv); [done|]. apply (Hshort (k, v) Hkv).
Qed.

Lemma truncate_content_short_strings_witness :
  truncate_content tool_result_line 16 "" false = tool_result_line.
Proof. apply (truncate_content_short_strings 16 tool_result_line). reflexivity. Defined.




Lemma string_length_append (a b : string) :
  String.length (a ++ b)%string = (String.length a + String.length b)%nat.
Proof. induction a as [|c a IH]; simpl; [done|]. by rewrite IH. Qed.

Lemma string_length_substring s : forall n m,
  (n + m <= String.length s)%nat -> String.length (String.substring n m s) = m.
Proof.
  induction s as [|c s IH]; intros [|n] [|m]; simpl; intros Hle; try done; try lia.
  - rewrite IH; [done|lia].
  - apply IH. lia.
  - apply IH. lia.
Qed.

Lemma str_of_int_nonempty z : (1 <= String.length (str_of_int z))%nat.
Proof.
  unfold str_of_int, NilZero.string_of_int.
  destruct (Z.to_int z) as [u|u]; simpl; [|lia].
  unfold NilZero.string_of_uint. destruct u; simpl; lia.
Qed.

(** X27.  The text put in place of a string is longer than [max_size]:
    truncation never brings a long string down to the limit. *)
Theorem truncated_exceeds_limit s max_size path :
  max_size < Z.of_nat (String.length s) ->
  exists t,
    truncate_content (JStr s) max_size path true = JStr t
    /\ max_size < Z.of_nat (String.length t).
Proof.
  intros Hlong. simpl. rewrite (proj2 (Z.ltb_lt _ _) Hlong). simpl.
  eexists. split; [reflexivity|].
  destruct (Z.lt_ge_cases max_size 0) as [Hneg|Hpos]; [lia|].
  unfold truncated. rewrite !string_length_append.
  pose proof (str_of_int_nonempty (Z.of_nat (String.length s) - max_size)) as Hdigits.
  set (half := max_size / 2).
  assert (Hhalf : 0 <= half /\ max_size <= 2 * half + 1 /\ half <= max_size).
  { unfold half. pose proof (Z.div_mod max_size 2). pose proof (Z.mod_pos_bound max_size 2).
    lia. }
  assert (Hto : String.length (slice_to s half) = Z.to_nat half).
  { unfold slice_to, slice_index.
    rewrite (proj2 (Z.ltb_ge half 0)) by lia.
    rewrite Z.min_l by lia. apply string_length_substring. lia. }
  assert (Hfrom : (Z.to_nat half <= String.length (slice_from s (- half)))%nat
                  /\ (half = 0 -> String.length (slice_from s (- half)) = String.length s)).
  { unfold slice_from, slice_index.
    destruct (Z.eq_dec half 0) as [->|Hnz].
    - simpl. rewrite Z.min_l by lia. simpl.
      rewrite string_length_substring by lia. split; [lia|]. intros _. lia.
    - rewrite (proj2 (Z.ltb_lt (- half) 0)) by lia.
      rewrite Z.max_l by lia.
      rewrite string_length_substring by lia. split; [lia|done]. }
  rewrite Hto. simpl String.length.
  destruct (Z.eq_dec half 0) as [Hz|Hnz].
  - rewrite (proj2 Hfrom Hz). lia.
  - destruct Hfrom as [Hfrom _]. lia.
Qed.

Lemma truncated_exceeds_limit_witness :
  exists t,
    truncate_content (JStr "0123456789abcdef") 4 "" true = JStr t
    /\ 4 < Z.of_nat (String.length t).
Proof. apply truncated_exceeds_limit. simpl. lia. Defined.

(** X28.  With [keep_last] between 1 and the number of lines less one, and a
    first line that is an object, the lines kept are the last [keep_last]
    lines, after the first line when that is the file history snapshot; so
    they are [keep_last] or one more.  With no [keep_last], with 0, or with a
    number that is not below the number of lines, every line is kept. *)
Theorem keep_lines_last items rest k :
  let lines := JDict items :: rest in
  0 < k < Z.of_nat (length lines) ->
  exists kept,
    keep_lines lines (Some k) = inr kept
    /\ kept = (if has_type items "file-history-snapshot" then [JDict items] else [])
              ++ drop (length lines - Z.to_nat k) lines
    /\ length kept
       = ((if has_type items "file-history-snapshot" then 1 else 0) + Z.to_nat k)%nat
    /\ (forall k', k' = 0 \/ Z.of_nat (length lines) <= k' ->
          keep_lines lines (Some k') = inr lines)
    /\ keep_lines lines None = inr lines.
Proof.
  intros lines Hk. unfold keep_lines.
  assert (Hcond : negb (k =? 0) && (k <? Z.of_nat (length lines)) = true).
  { apply andb_true_iff. split; [apply negb_true_iff, Z.eqb_neq; lia|].
    apply Z.ltb_lt. lia. }
  rewrite Hcond. unfold lines at 1.
  assert (Hslice : list_slice_from lines (- k) = drop (length lines - Z.to_nat k) lines).
  { unfold list_slice_from, slice_index.
    rewrite (proj2 (Z.ltb_lt (- k) 0)) by lia. rewrite Z.max_l by lia. f_equal. lia. }
  fold lines. rewrite Hslice. eexists. split; [reflexivity|]. split_and!.
  - by destruct (has_type items "file-history-snapshot").
  - clearbody lines.
    destruct (has_type items "file-history-snapshot"); cbn [length];
      rewrite length_drop; lia.
  - intros k' [->|Hbig]; [done|].
    rewrite (proj2 (Z.ltb_ge k' (Z.of_nat (length lines)))) by lia.
    by rewrite andb_false_r.
  - done.
Qed.

Lemma keep_lines_last_witness :
  exists kept,
    keep_lines session_lines (Some 2) = inr kept
    /\ kept = (if has_type [("type", JStr "file-history-snapshot")]
                           "file-history-snapshot"
               then [JDict [("type", JStr "file-history-snapshot")]] else [])
              ++ drop (length session_lines - Z.to_nat 2) session_lines
    /\ length kept
       = ((if has_type [("type", JStr "file-history-snapshot")]
                       "file-history-snapshot" then 1 else 0) + Z.to_nat 2)%nat
    /\ (forall k', k' = 0 \/ Z.of_nat (length session_lines) <= k' ->
          keep_lines session_lines (Some k') = inr session_lines)
    /\ keep_lines session_lines None = inr session_lines.
Proof.
  apply (keep_lines_last [("type", JStr "file-history-snapshot")]
           (tail session_lines) 2).
  simpl. lia.
Defined.

(** X29.  A negative [keep_last] does not keep the last lines: it drops the
    first [- keep_last] lines (or all of them), again after the first line
    when that is the file history snapshot; on a session without any line it
    ends in an [IndexError], and in an [AttributeError] when the first line
    is not an object. *)
Theorem keep_lines_negative lines k :
  k < 0 ->
  keep_lines lines (Some k)
  = match lines with
    | [] => inl IndexError
    | JDict items :: _ =>
        inr ((if has_type items "file-history-snapshot" then [JDict items] else [])
             ++ drop (Z.to_nat (- k)) lines)
    | _ :: _ => inl AttributeError
    end.
Proof.
  intros Hk. unfold keep_lines.
  assert (Hcond : negb (k =? 0) && (k <? Z.of_nat (length lines)) = true).
  { apply andb_true_iff. split; [apply negb_true_iff, Z.eqb_neq; lia|].
    apply Z.ltb_lt. lia. }
  rewrite Hcond. destruct lines as [|[| | | | | |items] rest]; try done.
  set (lines := JDict items :: rest).
  assert (Hslice : list_slice_from lines (- k) = drop (Z.to_nat (- k)) lines).
  { unfold list_slice_from, slice_index.
    rewrite (proj2 (Z.ltb_ge (- k) 0)) by lia.
    destruct (Z.le_gt_cases (- k) (Z.of_nat (length lines))) as [Hle|Hgt].
    - by rewrite Z.min_l by lia.
    - rewrite Z.min_r by lia. rewrite Nat2Z.id.
      rewrite !drop_ge; [done|lia|lia]. }
  rewrite Hslice. by destruct (has_type items "file-history-snapshot").
Qed.

Lemma keep_lines_negative_witness :
  keep_lines session_lines (Some (-3))
  = inr ([JDict [("type", JStr "file-history-snapshot")]]
         ++ drop (Z.to_nat (- -3)) session_lines).
Proof. apply (keep_lines_negative session_lines (-3)). lia. Defined.
